(** * otel-example-python: a shallow embedding of the service and its checked properties

    The development follows the layout of the repository.

    - [Py]: exceptions, the state-and-exception monad in which the effectful
      Python functions are written, and the [logging] levels.
    - [User], [UserCreate], [UserUpdate], [UserResponse]: app/models.py and
      app/schemas/user_schema.py.
    - [session], [get_db], [UserRepository]: app/database.py and
      app/repository/user_repository.py, over a table of rows that enforces
      the constraints declared in app/models.py.
    - [user_routes], [health], [metrics]: app/routes.
    - [Settings]: app/config.py.
    - [World]: the state of the process that the startup and shutdown code
      works on -- the settings cache, the [logging] tree, the process-wide
      OpenTelemetry providers -- with the trace of what the code did.
    - [logging_], [setup_logging], [telemetry], [main]: the [logging] calls
      the code makes, app/logging_config.py, app/telemetry.py, app/main.py.

    Statements about the code come after all definitions.  Requests are
    handled one at a time.  The database server enforces what app/models.py
    declares -- keys, uniqueness, not-null, the width of column [email] --
    in MySQL's default strict SQL mode; what else the server, the
    OpenTelemetry SDK and the collector do behind the calls made here is
    outside the model. *)

From Stdlib Require Import ZArith Lia Ascii String.
From stdpp Require Import base tactics option list strings pretty gmap.

Set Default Proof Using "Type".
#[local] Set Warnings "-clear-no-such-hyp".

(* ================================================================== *)
(** * Python runtime: exceptions and effects *)
(* ================================================================== *)

Module Py.

(** Instances of [Exception] that the modelled code raises or receives.
    [str e] is [exn_str e]. *)
Inductive PyExn : Type :=
| ValueError (msg : string)
| HTTPException (status_code : Z) (detail : string)
| IntegrityError (msg : string)
| MultipleResultsFound
| ValidationError (msg : string)
| OtherException (cls msg : string).

Definition exn_str (e : PyExn) : string :=
  match e with
  | ValueError msg => msg
  | HTTPException c d => pretty c +:+ ": " +:+ d
  | IntegrityError msg => msg
  | MultipleResultsFound =>
      "Multiple rows were found when one or none was required"
  | ValidationError msg => msg
  | OtherException _ msg => msg
  end.

(** Outcome of running a piece of code: a value, or a raised exception. *)
Inductive Res (A : Type) : Type :=
| Ok (a : A)
| Raise (e : PyExn).
Arguments Ok {A} a.
Arguments Raise {A} e.

(** Code that reads and writes a state [S] and may raise.  Writes made
    before a [Raise] stay in the state, as in Python. *)
Definition M (S A : Type) : Type := S → Res A * S.

Definition ret {S A} (a : A) : M S A := λ s, (Ok a, s).
Definition raise {S A} (e : PyExn) : M S A := λ s, (Raise e, s).
Definition bind {S A B} (m : M S A) (k : A → M S B) : M S B :=
  λ s, match m s with
       | (Ok a, s') => k a s'
       | (Raise e, s') => (Raise e, s')
       end.
Definition get {S} : M S S := λ s, (Ok s, s).
Definition modify {S} (f : S → S) : M S unit := λ s, (Ok tt, f s).
Definition lift_res {S A} (r : Res A) : M S A := λ s, (r, s).

(** [try: body  except Exception as e: handler e] *)
Definition try_except {S A} (body : M S A) (handler : PyExn → M S A) : M S A :=
  λ s, match body s with
       | (Ok a, s') => (Ok a, s')
       | (Raise e, s') => handler e s'
       end.

(** Levels of the [logging] module. *)
Definition NOTSET : Z := 0.
Definition DEBUG : Z := 10.
Definition INFO : Z := 20.
Definition WARNING : Z := 30.
Definition ERROR : Z := 40.
Definition CRITICAL : Z := 50.

(** A call [logging.getLogger(name).<level>(msg % args)]. *)
Record LogRecord := mkLog { log_name : string; log_levelno : Z; log_msg : string }.

(** [%s] of an optional string. *)
Definition fmt_s (o : option string) : string :=
  match o with Some s => s | None => "None" end.

(** A [str] is held as its UTF-8 bytes.  [len(s)] counts characters: the
    bytes that are not continuation bytes (10xxxxxx). *)
Definition is_continuation (c : ascii) : bool :=
  bool_decide (128 ≤ nat_of_ascii c < 192)%nat.

Fixpoint len (s : string) : nat :=
  match s with
  | EmptyString => 0
  | String c s' => (if is_continuation c then 0 else 1) + len s'
  end.

Definition apostrophe : ascii := ascii_of_nat 39.
Definition double_quote : ascii := ascii_of_nat 34.
Definition backslash : ascii := ascii_of_nat 92.

Fixpoint contains (c : ascii) (s : string) : bool :=
  match s with
  | EmptyString => false
  | String c' s' => bool_decide (c' = c) || contains c s'
  end.

Definition hex_digit (n : nat) : ascii :=
  match String.get n "0123456789abcdef" with Some c => c | None => "0"%char end.

(** One character of [repr(s)] inside the quotes [quote]. *)
Definition repr_char (quote c : ascii) : string :=
  let n := nat_of_ascii c in
  if bool_decide (c = quote ∨ c = backslash) then String backslash (String c EmptyString)
  else if bool_decide (n = 9%nat) then String backslash "t"
  else if bool_decide (n = 10%nat) then String backslash "n"
  else if bool_decide (n = 13%nat) then String backslash "r"
  else if bool_decide (n < 32 ∨ n = 127)%nat
       then String backslash
              (String "x"%char
                 (String (hex_digit (n / 16))
                    (String (hex_digit (n mod 16)) EmptyString)))
  else String c EmptyString.

Fixpoint repr_chars (quote : ascii) (s : string) : string :=
  match s with
  | EmptyString => EmptyString
  | String c s' => repr_char quote c +:+ repr_chars quote s'
  end.

(** [repr(s)], which [%r] formats with: in single quotes, or in double
    quotes when [s] holds a single quote and no double quote; the quote in
    use, the backslash and the control characters are escaped.  Bytes above
    127 are kept, as [repr] keeps the printable characters they encode. *)
Definition repr (s : string) : string :=
  let quote := if contains apostrophe s && negb (contains double_quote s)
               then double_quote else apostrophe in
  String quote (repr_chars quote s +:+ String quote EmptyString).

End Py.
Export Py.

Declare Scope py_scope.
Delimit Scope py_scope with py.
Notation "x <- m ;; k" := (bind m (λ x, k))
  (at level 100, m at next level, k at level 200, right associativity) : py_scope.
Notation "m ;;; k" := (bind m (λ _, k))
  (at level 100, k at level 200, right associativity) : py_scope.
Open Scope py_scope.

(* ================================================================== *)
(** * app/models.py and app/schemas/user_schema.py *)
(* ================================================================== *)

(** A row of table [users].  [name] and [email] are [nullable=False] columns
    but ordinary, possibly-[None] attributes of the Python object, so they
    are optional here and the constraint is checked at commit.  Timestamps
    are seconds on the server clock. *)
Module User.
Record t := mk {
  id : Z;
  name : option string;
  email : option string;
  bio : option string;
  created_at : Z;
  updated_at : Z }.
End User.

(** [UserCreate]: [name] and [email] are required, [bio] defaults to [None]. *)
Module UserCreate.
Record t := mk { name : string; email : string; bio : option string }.

(** [model_dump()], the keyword arguments given to the [User] constructor. *)
Definition model_dump (d : t) : option string * option string * option string :=
  (Some (name d), Some (email d), bio d).
End UserCreate.

(** The three attributes a [UserUpdate] can carry. *)
Inductive Field := FName | FEmail | FBio.

(** [UserUpdate]: every field is optional.  Pydantic remembers which fields
    the payload set: [None] is an unset field, [Some None] a field set to
    JSON [null], [Some (Some s)] a field set to [s]. *)
Module UserUpdate.
Record t := mk {
  name : option (option string);
  email : option (option string);
  bio : option (option string) }.

Definition dump_field (f : Field) (v : option (option string))
  : list (Field * option string) :=
  match v with Some x => [(f, x)] | None => [] end.

(** [model_dump(exclude_unset=True)]: the set fields, in declaration order. *)
Definition model_dump_exclude_unset (d : t) : list (Field * option string) :=
  dump_field FName (name d) ++ dump_field FEmail (email d) ++ dump_field FBio (bio d).

(** Truth value of [user_data.email]: [None] and the empty string are false. *)
Definition email_truthy (d : t) : option string :=
  match email d with
  | Some (Some e) => if decide (e = EmptyString) then None else Some e
  | _ => None
  end.
End UserUpdate.

(** [UserResponse]: a [UserBase] plus [id] and the timestamps. *)
Module UserResponse.
Record t := mk {
  id : Z;
  name : string;
  email : string;
  bio : option string;
  created_at : Z;
  updated_at : Z }.

(** [UserResponse.model_validate(user)] with [from_attributes=True]: copies
    the attributes; a [None] where a [str] is required is rejected. *)
Definition model_validate (u : User.t) : Res t :=
  match User.name u, User.email u with
  | Some n, Some e =>
      Ok (mk (User.id u) n e (User.bio u) (User.created_at u) (User.updated_at u))
  | _, _ => Raise (ValidationError "Input should be a valid string")
  end.
End UserResponse.

Global Instance Field_eq_dec : EqDecision Field.
Proof. solve_decision. Defined.
Global Instance User_eq_dec : EqDecision User.t.
Proof. solve_decision. Defined.

(** [setattr(user, field, value)] for the fields of a [UserUpdate]. *)
Definition setattr (u : User.t) (f : Field) (v : option string) : User.t :=
  match f with
  | FName => User.mk (User.id u) v (User.email u) (User.bio u)
                     (User.created_at u) (User.updated_at u)
  | FEmail => User.mk (User.id u) (User.name u) v (User.bio u)
                      (User.created_at u) (User.updated_at u)
  | FBio => User.mk (User.id u) (User.name u) (User.email u) v
                    (User.created_at u) (User.updated_at u)
  end.

(* ================================================================== *)
(** * app/database.py: the store behind an [AsyncSession] *)
(* ================================================================== *)

(** Table [users] in insertion order, and its AUTO_INCREMENT counter. *)
Record Database := mkDatabase { rows : list User.t; autoincrement : Z }.

(** What a request handler reads and writes: the database reached through
    its session, and the log records emitted so far. *)
Record Ctx := mkCtx { database : Database; records : list LogRecord }.

Definition logger_call (name : string) (levelno : Z) (msg : string) : M Ctx unit :=
  modify (λ c, mkCtx (database c) (records c ++ [mkLog name levelno msg])).

Module session.

(** [await session.execute(select(User).where(P))]: the matching rows. *)
Definition execute_select (P : User.t → Prop) `{∀ u, Decision (P u)}
  : M Ctx (list User.t) :=
  λ c, (Ok (filter P (rows (database c))), c).

(** [result.scalar_one_or_none()] *)
Definition scalar_one_or_none {A} (result : list A) : M Ctx (option A) :=
  match result with
  | [] => ret None
  | [x] => ret (Some x)
  | _ => raise MultipleResultsFound
  end.

(** Columns [name] and [email] are [nullable=False]. *)
Definition not_null (u : User.t) : Prop :=
  is_Some (User.name u) ∧ is_Some (User.email u).

(** Column [email] is [String(100)], and the schemas put no bound on the
    length of an e-mail ([name] is bounded to its column's 100 characters by
    [max_length=100], [bio] is [Text]). *)
Definition email_width : nat := 100.

Definition too_long (email : option string) : Prop :=
  match email with
  | Some e => (email_width < len e)%nat
  | None => False
  end.

Global Instance too_long_dec email : Decision (too_long email).
Proof. destruct email; apply _. Defined.

(** What the driver raises for MySQL's error 1406. *)
Definition DataError (statement : string) : PyExn :=
  OtherException "DataError"
    ("Data too long for column 'email' on " +:+ statement).

(** [add(user); commit(); refresh(user)]: INSERT of a new row.  The server
    hands out the id, the column defaults fill both timestamps with the
    clock reading [now].  The server runs in MySQL's default strict SQL
    mode, in which a value longer than its column fails the statement with
    [DataError].  A violated constraint raises [IntegrityError].  A failed
    statement leaves the table as it was. *)
Definition commit_insert (now : Z) (name email bio : option string)
  : M Ctx User.t :=
  λ c,
    let d := database c in
    let user := User.mk (autoincrement d) name email bio now now in
    if decide (not_null user ∧ too_long (User.email user))
    then (Raise (DataError "INSERT INTO users"), c)
    else
    if decide (not_null user
               ∧ Forall (λ r, User.id r ≠ User.id user
                              ∧ User.email r ≠ User.email user) (rows d))
    then (Ok user,
          mkCtx (mkDatabase (rows d ++ [user]) (autoincrement d + 1)) (records c))
    else (Raise (IntegrityError "constraint violated on INSERT INTO users"), c).

(** [commit(); refresh(user)] after attribute writes turned the loaded row
    [old] into [new]: no statement when nothing changed, else an UPDATE of
    the row with that primary key, [onupdate] stamping [updated_at].  The
    UPDATE sets the columns that changed, so an e-mail that changed and is
    longer than its column fails it with [DataError]. *)
Definition commit_update (now : Z) (old new : User.t) : M Ctx User.t :=
  λ c,
    let d := database c in
    if decide (new = old) then (Ok old, c)
    else
      let user := User.mk (User.id new) (User.name new) (User.email new)
                          (User.bio new) (User.created_at new) now in
      if decide (not_null user ∧ User.email new ≠ User.email old
                 ∧ too_long (User.email new))
      then (Raise (DataError "UPDATE users"), c)
      else
      if decide (not_null user
                 ∧ Forall (λ r, User.id r ≠ User.id user
                                → User.email r ≠ User.email user) (rows d))
      then (Ok user,
            mkCtx (mkDatabase
                     ((λ r, if decide (User.id r = User.id user) then user else r)
                        <$> rows d)
                     (autoincrement d))
                  (records c))
      else (Raise (IntegrityError "constraint violated on UPDATE users"), c).

(** [delete(user); commit()]: DELETE of the row with that primary key. *)
Definition commit_delete (user : User.t) : M Ctx unit :=
  modify (λ c,
    mkCtx (mkDatabase (filter (λ r, User.id r ≠ User.id user) (rows (database c)))
                      (autoincrement (database c)))
          (records c)).

End session.

(** [get_db]: the handler runs inside the session; an exception is logged,
    the session rolled back (every commit above is atomic, so nothing is
    pending) and the exception re-raised. *)
Definition get_db {A} (handler : M Ctx A) : M Ctx A :=
  try_except handler
    (λ e, logger_call "app.database" ERROR
            ("Database session error: " +:+ exn_str e) ;;;
          raise e).

(* ================================================================== *)
(** * app/repository/user_repository.py *)
(* ================================================================== *)

Module UserRepository.

Definition logger : string := "app.repository.user_repository".

Definition create (now : Z) (user_data : UserCreate.t) : M Ctx User.t :=
  let '(name, email, bio) := UserCreate.model_dump user_data in
  user <- session.commit_insert now name email bio ;;
  logger_call logger INFO
    ("Created user with id=" +:+ pretty (User.id user)
       +:+ ", email=" +:+ fmt_s (User.email user)) ;;;
  ret user.

Definition get_by_id (user_id : Z) : M Ctx (option User.t) :=
  result <- session.execute_select (λ u, User.id u = user_id) ;;
  user <- session.scalar_one_or_none result ;;
  match user with
  | Some _ => logger_call logger DEBUG ("Found user with id=" +:+ pretty user_id)
  | None => logger_call logger DEBUG
              ("User with id=" +:+ pretty user_id +:+ " not found")
  end ;;;
  ret user.

Definition get_all : M Ctx (list User.t) :=
  users <- session.execute_select (λ _, True) ;;
  logger_call logger DEBUG
    ("Retrieved " +:+ pretty (length users) +:+ " users") ;;;
  ret users.

Definition update (now : Z) (user_id : Z) (user_data : UserUpdate.t)
  : M Ctx (option User.t) :=
  user <- get_by_id user_id ;;
  match user with
  | None =>
      logger_call logger WARNING
        ("Attempted to update non-existent user with id=" +:+ pretty user_id) ;;;
      ret None
  | Some user =>
      let update_data := UserUpdate.model_dump_exclude_unset user_data in
      let user' := foldl (λ u fv, setattr u fv.1 fv.2) user update_data in
      user'' <- session.commit_update now user user' ;;
      logger_call logger INFO ("Updated user with id=" +:+ pretty user_id) ;;;
      ret (Some user'')
  end.

Definition delete (user_id : Z) : M Ctx bool :=
  user <- get_by_id user_id ;;
  match user with
  | None =>
      logger_call logger WARNING
        ("Attempted to delete non-existent user with id=" +:+ pretty user_id) ;;;
      ret false
  | Some user =>
      session.commit_delete user ;;;
      logger_call logger INFO ("Deleted user with id=" +:+ pretty user_id) ;;;
      ret true
  end.

Definition get_by_email (email : string) : M Ctx (option User.t) :=
  result <- session.execute_select (λ u, User.email u = Some email) ;;
  session.scalar_one_or_none result.

End UserRepository.

(* ================================================================== *)
(** * app/routes/user_routes.py *)
(* ================================================================== *)

Definition HTTP_200_OK : Z := 200.
Definition HTTP_201_CREATED : Z := 201.
Definition HTTP_204_NO_CONTENT : Z := 204.
Definition HTTP_404_NOT_FOUND : Z := 404.
Definition HTTP_409_CONFLICT : Z := 409.
Definition HTTP_500_INTERNAL_SERVER_ERROR : Z := 500.
Definition HTTP_503_SERVICE_UNAVAILABLE : Z := 503.

Module user_routes.

Definition create_user (now : Z) (user_data : UserCreate.t)
  : M Ctx UserResponse.t :=
  existing_user <- UserRepository.get_by_email (UserCreate.email user_data) ;;
  match existing_user with
  | Some _ =>
      raise (HTTPException HTTP_409_CONFLICT
               ("User with email " +:+ UserCreate.email user_data
                  +:+ " already exists"))
  | None =>
      user <- UserRepository.create now user_data ;;
      lift_res (UserResponse.model_validate user)
  end.

Definition get_users : M Ctx (list UserResponse.t * Z) :=
  users <- UserRepository.get_all ;;
  (fix validate_all (us : list User.t) (acc : list UserResponse.t) :=
     match us with
     | [] => ret (acc, Z.of_nat (length users))
     | u :: us' =>
         r <- lift_res (UserResponse.model_validate u) ;;
         validate_all us' (acc ++ [r])
     end) users [].

Definition get_user (user_id : Z) : M Ctx UserResponse.t :=
  user <- UserRepository.get_by_id user_id ;;
  match user with
  | None =>
      raise (HTTPException HTTP_404_NOT_FOUND
               ("User with id " +:+ pretty user_id +:+ " not found"))
  | Some user => lift_res (UserResponse.model_validate user)
  end.

(** The [if user_data.email:] block of [update_user]. *)
Definition email_check (user_id : Z) (user_data : UserUpdate.t) : M Ctx unit :=
  match UserUpdate.email_truthy user_data with
  | Some email =>
      existing_user <- UserRepository.get_by_email email ;;
      match existing_user with
      | Some existing_user =>
          if decide (User.id existing_user ≠ user_id)
          then raise (HTTPException HTTP_409_CONFLICT
                        ("User with email " +:+ email +:+ " already exists"))
          else ret tt
      | None => ret tt
      end
  | None => ret tt
  end.

Definition update_user (now : Z) (user_id : Z) (user_data : UserUpdate.t)
  : M Ctx UserResponse.t :=
  email_check user_id user_data ;;;
  user <- UserRepository.update now user_id user_data ;;
  match user with
  | None =>
      raise (HTTPException HTTP_404_NOT_FOUND
               ("User with id " +:+ pretty user_id +:+ " not found"))
  | Some user => lift_res (UserResponse.model_validate user)
  end.

Definition delete_user (user_id : Z) : M Ctx unit :=
  deleted <- UserRepository.delete user_id ;;
  if deleted : bool then ret tt
  else raise (HTTPException HTTP_404_NOT_FOUND
                ("User with id " +:+ pretty user_id +:+ " not found")).

End user_routes.

(** ** The HTTP layer around a handler *)

Inductive Body :=
| BUser (u : UserResponse.t)
| BUserList (users : list UserResponse.t) (total : Z)
| BJson (fields : list (string * string))
| BDetail (detail : string)
| BEmpty.

Record Response := mkResponse { status_code : Z; body : Body }.

(** What the framework sends for a handler run under [Depends(get_db)]: the
    route's declared status on return, the status and detail of a raised
    [HTTPException], and 500 for any other exception. *)
Definition serve {A} (success : Z) (render : A → Body) (handler : M Ctx A)
  : Ctx → Response * Ctx :=
  λ c, match get_db handler c with
       | (Ok a, c') => (mkResponse success (render a), c')
       | (Raise (HTTPException status detail), c') =>
           (mkResponse status (BDetail detail), c')
       | (Raise _, c') =>
           (mkResponse HTTP_500_INTERNAL_SERVER_ERROR
                       (BDetail "Internal Server Error"), c')
       end.

(** The five endpoints under [/api/users]. *)
Definition POST_users (now : Z) (user_data : UserCreate.t) :=
  serve HTTP_201_CREATED BUser (user_routes.create_user now user_data).
Definition GET_users :=
  serve HTTP_200_OK (λ r, BUserList r.1 r.2) user_routes.get_users.
Definition GET_user (user_id : Z) :=
  serve HTTP_200_OK BUser (user_routes.get_user user_id).
Definition PUT_user (now : Z) (user_id : Z) (user_data : UserUpdate.t) :=
  serve HTTP_200_OK BUser (user_routes.update_user now user_id user_data).
Definition DELETE_user (user_id : Z) :=
  serve HTTP_204_NO_CONTENT (λ _ : unit, BEmpty) (user_routes.delete_user user_id).

(* ================================================================== *)
(** * app/routes/health.py and app/routes/metrics.py *)
(* ================================================================== *)

Module health.

Definition logger : string := "app.routes.health".

Definition health : list (string * string) := [("status", "healthy")].

(** [ready(db)].  [execute_select_1] is [await db.execute(text("SELECT 1"))]
    on the injected session: it returns, or raises the driver's or
    SQLAlchemy's exception. *)
Definition ready (execute_select_1 : M Ctx unit) : M Ctx Response :=
  try_except
    (execute_select_1 ;;;
     ret (mkResponse HTTP_200_OK
            (BJson [("status", "ready"); ("database", "connected")])))
    (λ e,
       logger_call logger ERROR ("Readiness check failed: " +:+ exn_str e) ;;;
       ret (mkResponse HTTP_503_SERVICE_UNAVAILABLE
              (BJson [("status", "not ready"); ("database", "disconnected");
                      ("error", exn_str e)]))).

End health.

Module metrics.

Definition metrics : list (string * string) :=
  [("status", "metrics_enabled"); ("exporter", "otlp");
   ("message", "Metrics are being exported via OpenTelemetry OTLP")].

End metrics.

(** A handler that builds its own [JSONResponse]: the framework sends it as
    it is. *)
Definition serve_response (handler : M Ctx Response) : Ctx → Response * Ctx :=
  λ c, match get_db handler c with
       | (Ok r, c') => (r, c')
       | (Raise (HTTPException status detail), c') =>
           (mkResponse status (BDetail detail), c')
       | (Raise _, c') =>
           (mkResponse HTTP_500_INTERNAL_SERVER_ERROR
                       (BDetail "Internal Server Error"), c')
       end.

Definition GET_ready (execute_select_1 : M Ctx unit) :=
  serve_response (health.ready execute_select_1).

(* ================================================================== *)
(** * app/config.py *)
(* ================================================================== *)

Module Settings.

Record t := mk {
  db_host : string;
  db_port : Z;
  db_user : string;
  db_password : string;
  db_name : string;
  server_host : string;
  server_port : Z;
  app_env : string;
  log_level : string;
  otel_service_name : string;
  otel_service_version : string;
  otel_environment : string;
  otel_exporter_otlp_endpoint : string;
  otel_enable_tracing : bool;
  otel_enable_metrics : bool;
  otel_enable_logging : bool }.

(** The field defaults. *)
Definition default : t :=
  mk "localhost" 3306 "root" "password" "otel_example"
     "0.0.0.0" 8080 "development" "info"
     "otel-example-python" "1.0.0" "development" "localhost:4320"
     true true true.

Definition database_url (self : t) : string :=
  "mysql+aiomysql://" +:+ db_user self +:+ ":" +:+ db_password self
    +:+ "@" +:+ db_host self +:+ ":" +:+ pretty (db_port self)
    +:+ "/" +:+ db_name self.

Definition database_url_sync (self : t) : string :=
  "mysql+pymysql://" +:+ db_user self +:+ ":" +:+ db_password self
    +:+ "@" +:+ db_host self +:+ ":" +:+ pretty (db_port self)
    +:+ "/" +:+ db_name self.

End Settings.

(* ================================================================== *)
(** * The process: logging tree, OpenTelemetry globals, call trace *)
(* ================================================================== *)

(** The three telemetry signals. *)
Inductive Signal := Tracing | Metrics | Logging.

Global Instance Signal_eq_dec : EqDecision Signal.
Proof. solve_decision. Defined.

(** Objects the code constructs, with the constructor arguments it passes.
    An object is known by the number it got when it was allocated. *)
Inductive Obj :=
| Resource (service_name service_version deployment_environment : string)
| TracerProvider (resource : nat)
| OTLPSpanExporter (endpoint : string) (insecure : bool)
| BatchSpanProcessor (exporter : nat)
| OTLPMetricExporter (endpoint : string) (insecure : bool)
| PeriodicExportingMetricReader (exporter : nat) (export_interval_millis : Z)
| MeterProvider (resource : nat) (metric_readers : list nat)
| SystemMetricsInstrumentor
| OTLPLogExporter (endpoint : string) (insecure : bool)
| LoggerProvider (resource : nat)
| BatchLogRecordProcessor (exporter : nat)
| LoggingHandler (level : Z) (logger_provider : nat)
| StreamHandler (stream : string)
| JsonFormatter (fmt datefmt : string)
| AsyncEngine (url : string) (echo : bool)
| FastAPI (title : string)
| SQLAlchemyInstrumentor.

(** The signal an object belongs to; the resource and the objects outside
    telemetry belong to none. *)
Definition signal_of (o : Obj) : option Signal :=
  match o with
  | TracerProvider _ | OTLPSpanExporter _ _ | BatchSpanProcessor _ => Some Tracing
  | OTLPMetricExporter _ _ | PeriodicExportingMetricReader _ _
  | MeterProvider _ _ | SystemMetricsInstrumentor => Some Metrics
  | OTLPLogExporter _ _ | LoggerProvider _ | BatchLogRecordProcessor _
  | LoggingHandler _ _ => Some Logging
  | _ => None
  end.

(** The functions whose calls the trace brackets. *)
Inductive Call :=
| Cget_settings
| Csetup_logging
| Csetup_telemetry
| Cinstrument_fastapi
| Cinstrument_sqlalchemy
| Cclose_db
| Cshutdown_telemetry.

Global Instance Call_eq_dec : EqDecision Call.
Proof. solve_decision. Defined.

(** What the process does, in the order it does it. *)
Inductive Event :=
| Enter (c : Call)
| Exit (c : Call)
| SettingsBuilt
| New (id : nat) (o : Obj)
| AddProcessor (sig : Signal) (provider processor : nat)
| SetProvider (sig : Signal) (provider : nat)
| InstrumentSystemMetrics (instrumentor : nat)
| AddMiddleware (app : nat) (name : string)
| InstrumentApp (app : nat)
| IncludeRouter (app : nat) (name : string)
| InstrumentEngine (instrumentor engine : nat)
| EngineDispose (engine : nat)
| ProviderShutdown (sig : Signal) (provider : nat)
| Logged (r : LogRecord).

(** A handler attached to a logger: the object, its level and formatter. *)
Record Handler := mkHandler {
  h_id : nat;
  h_obj : Obj;
  h_level : Z;
  h_formatter : option nat }.

(** The [logging] tree: the root logger, and the levels set on named
    loggers ([logging.getLogger(name)] creates the logger on first use). *)
Record LoggingState := mkLogging {
  root_level : Z;
  root_handlers : list Handler;
  levels : gmap string Z }.

(** What [get_tracer_provider()] and its siblings return: an object that
    may or may not have a [shutdown] attribute. *)
Record Provider := mkProvider { prov_id : nat; has_shutdown : bool }.

(** Modelled from the spec: [trace.set_tracer_provider],
    [metrics.set_meter_provider] and [set_logger_provider] belong to the
    OpenTelemetry API, not to this repository; registration makes the given
    provider the process-wide active one, replacing any prior one. *)
Definition register (sig : Signal) (p : Provider) (reg : Signal → Provider)
  : Signal → Provider :=
  λ s, if decide (s = sig) then p else reg s.

Record World := mkWorld {
  (** what [Settings()] evaluates to in this process's environment *)
  environ : Settings.t;
  (** the [lru_cache] of [get_settings] *)
  settings_cache : option Settings.t;
  (** allocation counter *)
  next_obj : nat;
  logging : LoggingState;
  (** the process-wide provider of each signal *)
  providers : Signal → Provider;
  (** the exception, if any, that [shutdown()] of an object raises *)
  shutdown_fault : nat → option PyExn;
  events : list Event }.

Definition emit (e : Event) : M World unit :=
  modify (λ w, mkWorld (environ w) (settings_cache w) (next_obj w) (logging w)
                       (providers w) (shutdown_fault w) (events w ++ [e])).

(** Constructor call: allocates the next object. *)
Definition new (o : Obj) : M World nat :=
  λ w, (Ok (next_obj w),
        mkWorld (environ w) (settings_cache w) (S (next_obj w)) (logging w)
                (providers w) (shutdown_fault w)
                (events w ++ [New (next_obj w) o])).

Definition set_logging (f : LoggingState → LoggingState) : M World unit :=
  modify (λ w, mkWorld (environ w) (settings_cache w) (next_obj w)
                       (f (logging w)) (providers w) (shutdown_fault w)
                       (events w)).

(** [set_tracer_provider(p)] and its siblings, called with a provider of the
    SDK, which has a [shutdown] method. *)
Definition set_provider (sig : Signal) (p : nat) : M World unit :=
  emit (SetProvider sig p) ;;;
  modify (λ w, mkWorld (environ w) (settings_cache w) (next_obj w) (logging w)
                       (register sig (mkProvider p true) (providers w))
                       (shutdown_fault w) (events w)).

(** Brackets the body of a function in the trace; a body that raises
    leaves no [Exit]. *)
Definition call {A} (c : Call) (body : M World A) : M World A :=
  emit (Enter c) ;;;
  r <- body ;;
  emit (Exit c) ;;;
  ret r.

Definition logger_info (name msg : string) : M World unit :=
  emit (Logged (mkLog name INFO msg)).

(** [for x in xs: body x] *)
Fixpoint for_each {S A} (xs : list A) (body : A → M S unit) : M S unit :=
  match xs with
  | [] => ret tt
  | x :: xs' => body x ;;; for_each xs' body
  end.

(** [get_settings()], cached: [Settings()] is evaluated on the first call. *)
Definition get_settings : M World Settings.t :=
  call Cget_settings
    (w <- get ;;
     match settings_cache w with
     | Some settings => ret settings
     | None =>
         emit SettingsBuilt ;;;
         modify (λ w, mkWorld (environ w) (Some (environ w)) (next_obj w)
                              (logging w) (providers w) (shutdown_fault w)
                              (events w)) ;;;
         ret (environ w)
     end).

(* ================================================================== *)
(** * The [logging] calls the code makes *)
(* ================================================================== *)

Module logging_.

(** [str.upper] on the ASCII letters; other bytes are kept. *)
Definition upper_ascii (c : ascii) : ascii :=
  let n := nat_of_ascii c in
  if decide (97 ≤ n ≤ 122)%nat then ascii_of_nat (n - 32) else c.

Fixpoint upper (s : string) : string :=
  match s with
  | EmptyString => EmptyString
  | String c s' => String (upper_ascii c) (upper s')
  end.

(** [str.lower], likewise. *)
Definition lower_ascii (c : ascii) : ascii :=
  let n := nat_of_ascii c in
  if decide (65 ≤ n ≤ 90)%nat then ascii_of_nat (n + 32) else c.

Fixpoint lower (s : string) : string :=
  match s with
  | EmptyString => EmptyString
  | String c s' => String (lower_ascii c) (lower s')
  end.

(** The level names that [logging] defines; nothing in the repository calls
    [addLevelName]. *)
Definition _nameToLevel : list (string * Z) :=
  [("CRITICAL", CRITICAL); ("FATAL", CRITICAL); ("ERROR", ERROR);
   ("WARN", WARNING); ("WARNING", WARNING); ("INFO", INFO);
   ("DEBUG", DEBUG); ("NOTSET", NOTSET)].

Fixpoint assoc (k : string) (l : list (string * Z)) : option Z :=
  match l with
  | [] => None
  | (k', v) :: l' => if decide (k' = k) then Some v else assoc k l'
  end.

(** [_checkLevel(level)] for a level given by name; the message is
    ["Unknown level: %r" % (level,)]. *)
Definition _checkLevel (level : string) : M World Z :=
  match assoc level _nameToLevel with
  | Some rv => ret rv
  | None => raise (ValueError ("Unknown level: " +:+ repr level))
  end.

(** [logging.getLogger().setLevel(level)] *)
Definition root_setLevel (level : string) : M World unit :=
  rv <- _checkLevel level ;;
  set_logging (λ l, mkLogging rv (root_handlers l) (levels l)).

(** [logging.getLogger(name).setLevel(level)] with a numeric level. *)
Definition setLevel (name : string) (level : Z) : M World unit :=
  set_logging (λ l, mkLogging (root_level l) (root_handlers l)
                              (<[name := level]> (levels l))).

(** [hdlr in self.handlers]: handlers compare by identity. *)
Definition has_handler (id : nat) (hs : list Handler) : bool :=
  bool_decide (Exists (λ h, h_id h = id) hs).

(** [list.remove(hdlr)]: drops the first occurrence. *)
Fixpoint remove_first (id : nat) (hs : list Handler) : list Handler :=
  match hs with
  | [] => []
  | h :: hs' => if decide (h_id h = id) then hs' else h :: remove_first id hs'
  end.

(** [root_logger.removeHandler(hdlr)] *)
Definition removeHandler (hdlr : Handler) : M World unit :=
  set_logging (λ l,
    if has_handler (h_id hdlr) (root_handlers l)
    then mkLogging (root_level l) (remove_first (h_id hdlr) (root_handlers l))
                   (levels l)
    else l).

(** [root_logger.addHandler(hdlr)] *)
Definition addHandler (hdlr : Handler) : M World unit :=
  set_logging (λ l,
    if has_handler (h_id hdlr) (root_handlers l)
    then l
    else mkLogging (root_level l) (root_handlers l ++ [hdlr]) (levels l)).

End logging_.

(* ================================================================== *)
(** * app/logging_config.py *)
(* ================================================================== *)

Definition setup_logging : M World unit :=
  call Csetup_logging
    (settings <- get_settings ;;
     logging_.root_setLevel (logging_.upper (Settings.log_level settings)) ;;;
     w <- get ;;
     for_each (root_handlers (logging w)) logging_.removeHandler ;;;
     console_handler <- new (StreamHandler "sys.stdout") ;;
     level <- logging_._checkLevel (logging_.upper (Settings.log_level settings)) ;;
     formatter <- new (JsonFormatter "%(asctime)s %(name)s %(levelname)s %(message)s"
                                     "%Y-%m-%dT%H:%M:%SZ") ;;
     logging_.addHandler
       (mkHandler console_handler (StreamHandler "sys.stdout") level (Some formatter)) ;;;
     logging_.setLevel "uvicorn.access" WARNING ;;;
     logging_.setLevel "uvicorn.error" INFO ;;;
     logger_info "root" "Logging configured").

(* ================================================================== *)
(** * app/telemetry.py *)
(* ================================================================== *)

Module telemetry.

Definition logger : string := "app.telemetry".

Definition setup_tracing (settings : Settings.t) (resource : nat) : M World unit :=
  trace_provider <- new (TracerProvider resource) ;;
  span_exporter <-
    new (OTLPSpanExporter (Settings.otel_exporter_otlp_endpoint settings) true) ;;
  processor <- new (BatchSpanProcessor span_exporter) ;;
  emit (AddProcessor Tracing trace_provider processor) ;;;
  set_provider Tracing trace_provider ;;;
  logger_info logger
    ("OpenTelemetry tracing initialized with endpoint: "
       +:+ Settings.otel_exporter_otlp_endpoint settings).

Definition setup_metrics (settings : Settings.t) (resource : nat) : M World unit :=
  metric_exporter <-
    new (OTLPMetricExporter (Settings.otel_exporter_otlp_endpoint settings) true) ;;
  metric_reader <- new (PeriodicExportingMetricReader metric_exporter 60000) ;;
  meter_provider <- new (MeterProvider resource [metric_reader]) ;;
  set_provider Metrics meter_provider ;;;
  instrumentor <- new SystemMetricsInstrumentor ;;
  emit (InstrumentSystemMetrics instrumentor) ;;;
  logger_info logger
    "OpenTelemetry metrics initialized with system instrumentation".

Definition setup_log_export (settings : Settings.t) (resource : nat) : M World unit :=
  log_exporter <-
    new (OTLPLogExporter (Settings.otel_exporter_otlp_endpoint settings) true) ;;
  logger_provider <- new (LoggerProvider resource) ;;
  processor <- new (BatchLogRecordProcessor log_exporter) ;;
  emit (AddProcessor Logging logger_provider processor) ;;;
  set_provider Logging logger_provider ;;;
  handler <- new (LoggingHandler NOTSET logger_provider) ;;
  logging_.addHandler
    (mkHandler handler (LoggingHandler NOTSET logger_provider) NOTSET None) ;;;
  logger_info logger "OpenTelemetry logging initialized with OTLP exporter".

(** [setup_telemetry(settings)]: the three [if settings.otel_enable_*:]
    blocks, in source order. *)
Definition setup_telemetry (settings : Settings.t) : M World unit :=
  call Csetup_telemetry
    (resource <- new (Resource (Settings.otel_service_name settings)
                               (Settings.otel_service_version settings)
                               (Settings.otel_environment settings)) ;;
     (if Settings.otel_enable_tracing settings
      then setup_tracing settings resource else ret tt) ;;;
     (if Settings.otel_enable_metrics settings
      then setup_metrics settings resource else ret tt) ;;;
     (if Settings.otel_enable_logging settings
      then setup_log_export settings resource else ret tt)).

Definition instrument_fastapi (app : nat) : M World unit :=
  call Cinstrument_fastapi
    (emit (InstrumentApp app) ;;;
     logger_info logger "FastAPI instrumented with OpenTelemetry").

Definition instrument_sqlalchemy (engine : nat) : M World unit :=
  call Cinstrument_sqlalchemy
    (instrumentor <- new SQLAlchemyInstrumentor ;;
     emit (InstrumentEngine instrumentor engine) ;;;
     logger_info logger "SQLAlchemy instrumented with OpenTelemetry").

(** [provider.shutdown()]: what it does is the library's and the
    collector's business; it returns or raises as [shutdown_fault] says. *)
Definition provider_shutdown (sig : Signal) (p : Provider) : M World unit :=
  emit (ProviderShutdown sig (prov_id p)) ;;;
  w <- get ;;
  match shutdown_fault w (prov_id p) with
  | Some e => raise e
  | None => ret tt
  end.

(** One of the three [if hasattr(provider, "shutdown"):] blocks. *)
Definition shutdown_one (sig : Signal) (msg : string) : M World unit :=
  w <- get ;;
  let provider := providers w sig in
  if has_shutdown provider
  then provider_shutdown sig provider ;;; logger_info logger msg
  else ret tt.

Definition shutdown_telemetry : M World unit :=
  call Cshutdown_telemetry
    (shutdown_one Tracing "OpenTelemetry tracer provider shut down" ;;;
     shutdown_one Metrics "OpenTelemetry meter provider shut down" ;;;
     shutdown_one Logging "OpenTelemetry logger provider shut down").

End telemetry.

(* ================================================================== *)
(** * app/database.py and app/main.py at import, and the lifespan *)
(* ================================================================== *)

(** Module level of app/database.py: resolves the settings and creates the
    engine. *)
Definition import_database : M World nat :=
  settings <- get_settings ;;
  new (AsyncEngine (Settings.database_url settings)
                   (bool_decide (logging_.lower (Settings.log_level settings) = "debug"))).

Definition close_db (engine : nat) : M World unit :=
  call Cclose_db
    (emit (EngineDispose engine) ;;;
     logger_info "app.database" "Database connections closed").

Module main.

Definition logger : string := "app.main".

(** What importing app/main.py leaves behind: its module globals. *)
Record Globals := mkGlobals { settings : Settings.t; engine : nat; app : nat }.

(** The module level of app/main.py, top to bottom.  Its first effectful
    import is app.database; the other imported modules only define. *)
Definition import_main : M World Globals :=
  engine <- import_database ;;
  setup_logging ;;;
  settings <- get_settings ;;
  app <- new (FastAPI "OpenTelemetry Python Example API") ;;
  emit (AddMiddleware app "CORSMiddleware") ;;;
  telemetry.instrument_fastapi app ;;;
  emit (IncludeRouter app "health") ;;;
  emit (IncludeRouter app "metrics") ;;;
  emit (IncludeRouter app "user_routes") ;;;
  logger_info logger "Application initialized" ;;;
  ret (mkGlobals settings engine app).

(** [lifespan] up to its [yield]. *)
Definition lifespan_startup (g : Globals) : M World unit :=
  logger_info logger "Starting application" ;;;
  telemetry.setup_telemetry (settings g) ;;;
  telemetry.instrument_sqlalchemy (engine g) ;;;
  logger_info logger "OpenTelemetry instrumentation initialized".

(** [lifespan] after its [yield]. *)
Definition lifespan_shutdown (g : Globals) : M World unit :=
  logger_info logger "Shutting down application" ;;;
  close_db (engine g) ;;;
  telemetry.shutdown_telemetry ;;;
  logger_info logger "Application shutdown complete".

(** A startup run: the server imports the module, then enters the lifespan. *)
Definition startup : M World Globals :=
  g <- import_main ;;
  lifespan_startup g ;;;
  ret g.

End main.

(** A fresh interpreter: nothing cached, nothing allocated but the three
    proxy providers of the OpenTelemetry API (which have no [shutdown]),
    the root logger at WARNING without handlers. *)
Definition initial_world (environ : Settings.t) (fault : nat → option PyExn) : World :=
  mkWorld environ None 3 (mkLogging WARNING [] ∅)
          (λ sig, mkProvider (match sig with Tracing => 0 | Metrics => 1 | Logging => 2 end)
                             false)
          fault [].

Definition no_fault : nat → option PyExn := λ _, None.

(* ================================================================== *)
(** * Vocabulary of the statements *)
(* ================================================================== *)

(** The constraints that app/models.py declares on table [users], as the
    database keeps them: [id] is the primary key and was handed out by the
    counter, [email] is unique, [name] and [email] are not null. *)
Definition db_wf (d : Database) : Prop :=
  NoDup (User.id <$> rows d)
  ∧ Forall (λ u, (User.id u < autoincrement d)%Z) (rows d)
  ∧ NoDup (User.email <$> rows d)
  ∧ Forall session.not_null (rows d).

Global Instance db_wf_dec d : Decision (db_wf d).
Proof. unfold db_wf, session.not_null. apply _. Defined.

(** The context after one more log record. *)
Definition with_record (c : Ctx) (r : LogRecord) : Ctx :=
  mkCtx (database c) (records c ++ [r]).

(** The 404 response of the routes under [/api/users/{user_id}]. *)
Definition not_found (user_id : Z) : Response :=
  mkResponse HTTP_404_NOT_FOUND
             (BDetail ("User with id " +:+ pretty user_id +:+ " not found")).

(** The row [update] commits for the loaded row [u] and the payload. *)
Definition updated_row (u : User.t) (user_data : UserUpdate.t) : User.t :=
  foldl (λ u fv, setattr u fv.1 fv.2) u
        (UserUpdate.model_dump_exclude_unset user_data).

(** Sample data: the two users of the repository's route tests. *)
Definition john : User.t :=
  User.mk 1 (Some "John Doe") (Some "john@example.com")
          (Some "Software Engineer") 1735689600 1735689600.
Definition other_user : User.t :=
  User.mk 2 (Some "Other User") (Some "other@example.com") (Some "Other")
          1735689600 1735689600.
Definition sample_db : Database := mkDatabase [john; other_user] 3.
Definition sample_ctx : Ctx := mkCtx sample_db [].

(** A well-formed address longer than column [email]: a local part of 64
    characters and a domain label of 50. *)
Definition long_email : string :=
  String.concat EmptyString (replicate 64 "a") +:+ "@"
    +:+ String.concat EmptyString (replicate 50 "b") +:+ ".example.com".

(** The requested e-mail is held by a stored user other than [user_id]. *)
Definition held_by_other (user_id : Z) (user_data : UserUpdate.t) (d : Database)
  : Prop :=
  ∃ email u, UserUpdate.email_truthy user_data = Some email
             ∧ u ∈ rows d ∧ User.email u = Some email ∧ User.id u ≠ user_id.

(** The settings a call of [get_settings] returns in world [w]. *)
Definition resolved_settings (w : World) : Settings.t :=
  default (environ w) (settings_cache w).

(** [level] names the level [lvl] for [logging], once upper-cased. *)
Definition names_level (level : string) (lvl : Z) : Prop :=
  logging_.assoc (logging_.upper level) logging_._nameToLevel = Some lvl.

(** The enable flag of a signal. *)
Definition enabled (sig : Signal) (settings : Settings.t) : bool :=
  match sig with
  | Tracing => Settings.otel_enable_tracing settings
  | Metrics => Settings.otel_enable_metrics settings
  | Logging => Settings.otel_enable_logging settings
  end.

(** The signal an event works for: constructions, processor attachment,
    global registration, system-metrics instrumentation, shutdown. *)
Definition event_signal (e : Event) : option Signal :=
  match e with
  | New _ o => signal_of o
  | AddProcessor sig _ _ | SetProvider sig _ | ProviderShutdown sig _ => Some sig
  | InstrumentSystemMetrics _ => Some Metrics
  | _ => None
  end.

Definition is_provider (sig : Signal) (o : Obj) : Prop :=
  match sig, o with
  | Tracing, TracerProvider _ | Metrics, MeterProvider _ _
  | Logging, LoggerProvider _ => True
  | _, _ => False
  end.

Definition is_exporter (sig : Signal) (o : Obj) : Prop :=
  match sig, o with
  | Tracing, OTLPSpanExporter _ _ | Metrics, OTLPMetricExporter _ _
  | Logging, OTLPLogExporter _ _ => True
  | _, _ => False
  end.

(** The console handler, and the OTLP bridge handler. *)
Definition is_console (h : Handler) : Prop := h_obj h = StreamHandler "sys.stdout".
Definition is_otlp_bridge (h : Handler) : Prop :=
  match h_obj h with LoggingHandler _ _ => True | _ => False end.

Global Instance is_otlp_bridge_dec h : Decision (is_otlp_bridge h).
Proof. unfold is_otlp_bridge. destruct (h_obj h); apply _. Defined.

Global Instance PyExn_eq_dec : EqDecision PyExn.
Proof. solve_decision. Defined.
Global Instance LogRecord_eq_dec : EqDecision LogRecord.
Proof. solve_decision. Defined.
Global Instance Obj_eq_dec : EqDecision Obj.
Proof. solve_decision. Defined.
Global Instance Event_eq_dec : EqDecision Event.
Proof. solve_decision. Defined.

(** The bracketing events and the evaluation of [Settings()]. *)
Definition is_step (e : Event) : bool :=
  match e with
  | Enter _ | Exit _ | SettingsBuilt => true
  | _ => false
  end.

Definition steps (tr : list Event) : list Event := List.filter is_step tr.

(** [a] occurs in the trace, and [b] occurs after the first [a]. *)
Fixpoint occurs_before (a b : Event) (tr : list Event) : bool :=
  match tr with
  | [] => false
  | e :: tr' =>
      if decide (e = a) then bool_decide (b ∈ tr') else occurs_before a b tr'
  end.

(** [n] consecutive calls. *)
Fixpoint repeat_call {S} (n : nat) (f : M S unit) : M S unit :=
  match n with
  | O => ret tt
  | Datatypes.S n' => f ;;; repeat_call n' f
  end.

(** The console handler [setup_logging] installs when the allocation
    counter stands at [n]: the handler is object [n], its formatter [n+1]. *)
Definition console_handler (n : nat) (lvl : Z) : Handler :=
  mkHandler n (StreamHandler "sys.stdout") lvl (Some (S n)).

(** The events of one call of [get_settings], and of one call of
    [setup_logging] that returns. *)
Definition get_settings_trace (cache : option Settings.t) : list Event :=
  Enter Cget_settings
    :: match cache with Some _ => [] | None => [SettingsBuilt] end
    ++ [Exit Cget_settings].

Definition setup_logging_trace (cache : option Settings.t) (n : nat) : list Event :=
  Enter Csetup_logging :: get_settings_trace cache
    ++ [New n (StreamHandler "sys.stdout");
        New (S n) (JsonFormatter "%(asctime)s %(name)s %(levelname)s %(message)s"
                                 "%Y-%m-%dT%H:%M:%SZ");
        Logged (mkLog "root" INFO "Logging configured");
        Exit Csetup_logging].

(** The bracketing events of a startup run, in order. *)
Definition startup_steps (cache : option Settings.t) : list Event :=
  get_settings_trace cache
    ++ [Enter Csetup_logging; Enter Cget_settings; Exit Cget_settings;
        Exit Csetup_logging;
        Enter Cget_settings; Exit Cget_settings;
        Enter Cinstrument_fastapi; Exit Cinstrument_fastapi;
        Enter Csetup_telemetry; Exit Csetup_telemetry;
        Enter Cinstrument_sqlalchemy; Exit Cinstrument_sqlalchemy].

(** Sample fault: [shutdown()] of object 8 raises.  In a startup run from
    [initial_world] with the default settings, object 8 is the tracer
    provider. *)
Definition tracer_fails : nat → option PyExn :=
  λ id, if decide (id = 8%nat)
        then Some (OtherException "Exception" "collector unreachable")
        else None.

(** Order of the three [hasattr] blocks of [shutdown_telemetry]. *)
Definition earlier (a b : Signal) : Prop :=
  match a, b with
  | Tracing, Metrics | Tracing, Logging | Metrics, Logging => True
  | _, _ => False
  end.

(* ================================================================== *)
(** * Vocabulary of the further statements *)
(* ================================================================== *)

(** Code that keeps the table's constraints, whatever it returns or raises. *)
Definition keeps_wf {A} (m : M Ctx A) : Prop :=
  ∀ c r c', db_wf (database c) → m c = (r, c') → db_wf (database c').

(** Code that does not write to the database. *)
Definition read_only {A} (m : M Ctx A) : Prop :=
  ∀ c r c', m c = (r, c') → database c' = database c.

(** The resource a provider is built on, and the endpoint and transport an
    exporter is built with. *)
Definition provider_resource (o : Obj) : option nat :=
  match o with
  | TracerProvider r | MeterProvider r _ | LoggerProvider r => Some r
  | _ => None
  end.

Definition exporter_target (o : Obj) : option (string * bool) :=
  match o with
  | OTLPSpanExporter ep ins | OTLPMetricExporter ep ins | OTLPLogExporter ep ins =>
      Some (ep, ins)
  | _ => None
  end.

(** The process environment changes under the running process. *)
Definition environ_changes (environ' : Settings.t) : M World unit :=
  modify (λ w, mkWorld environ' (settings_cache w) (next_obj w) (logging w)
                       (providers w) (shutdown_fault w) (events w)).

(** The events of a trace that work for one signal, in order. *)
Definition signal_trace (sig : Signal) (evs : list Event) : list Event :=
  filter (λ e, event_signal e = Some sig) evs.

(** The events [shutdown_telemetry] can add. *)
Definition shutdown_event (e : Event) : Prop :=
  match e with
  | Enter Cshutdown_telemetry | Exit Cshutdown_telemetry
  | ProviderShutdown _ _ => True
  | Logged r => log_name r = telemetry.logger
  | _ => False
  end.

(** A whole run: startup, then the lifespan's shutdown. *)
Definition lifecycle : M World unit :=
  g <- main.startup ;; main.lifespan_shutdown g.

(** Registrations and provider shutdowns. *)
Definition is_lifecycle_event (e : Event) : bool :=
  match e with
  | SetProvider _ _ | ProviderShutdown _ _ => true
  | _ => false
  end.

(* ================================================================== *)
(** * Properties: the monad *)
(* ================================================================== *)

(** Unfolds the monad's operations and computes. *)
Ltac run :=
  cbv [bind ret raise modify get lift_res try_except logger_call
       session.scalar_one_or_none] in *;
  simpl in *.

(** Unfolds the status constants. *)
Ltac http :=
  cbv [HTTP_200_OK HTTP_201_CREATED HTTP_204_NO_CONTENT HTTP_404_NOT_FOUND
       HTTP_409_CONFLICT HTTP_500_INTERNAL_SERVER_ERROR
       HTTP_503_SERVICE_UNAVAILABLE] in *;
  simpl in *.

(** Symbolic execution of code over [World]. *)
Ltac wrun :=
  cbv [bind new emit modify ret raise get call set_logging set_provider
       logger_info lift_res
       environ settings_cache next_obj logging providers shutdown_fault events
       root_level root_handlers levels
       Settings.otel_enable_tracing Settings.otel_enable_metrics
       Settings.otel_enable_logging] in *.

(** Instantiates a statement about every signal at the three signals. *)
Ltac at_each_signal H :=
  pose proof (H Tracing); pose proof (H Metrics); pose proof (H Logging);
  clear H.

(** Membership in an explicit list, trying each position in turn. *)
Ltac mem := (apply list_elem_of_here) + (apply list_elem_of_further; mem).

Lemma bind_ok {S A B} (m : M S A) (k : A → M S B) s a s' :
  m s = (Ok a, s') → bind m k s = k a s'.
Proof. unfold bind. by intros ->. Qed.

Lemma bind_raise {S A B} (m : M S A) (k : A → M S B) s e s' :
  m s = (Raise e, s') → bind m k s = (Raise e, s').
Proof. unfold bind. by intros ->. Qed.

(* ================================================================== *)
(** * Properties: the [users] table *)
(* ================================================================== *)

Section keyed_rows.
Context {K : Type} `{EqDecision K} (key : User.t → K).

(** A query on a key no row has selects nothing. *)
Lemma filter_key_absent (k : K) (l : list User.t) :
  (∀ u, u ∈ l → key u ≠ k) → filter (λ r, key r = k) l = [].
Proof.
  induction l as [|r l IH]; intros Hno; [done|].
  rewrite filter_cons. destruct (decide (key r = k)) as [Heq|_].
  - exfalso. eapply Hno; [left|done].
  - apply IH. intros u Hu. apply Hno. by right.
Qed.

(** A query on a key that is unique in the table selects the one row. *)
Lemma filter_key_unique (u : User.t) (l : list User.t) :
  NoDup (key <$> l) → u ∈ l → filter (λ r, key r = key u) l = [u].
Proof.
  induction l as [|r l IH]; intros Hnd Hin; [by apply elem_of_nil in Hin|].
  rewrite fmap_cons in Hnd. apply NoDup_cons in Hnd as [Hr Hnd].
  rewrite filter_cons. apply elem_of_cons in Hin as [->|Hin].
  - rewrite decide_True by done. f_equal.
    apply filter_key_absent. intros u' Hu' Heq. apply Hr.
    rewrite <- Heq. by apply list_elem_of_fmap_2.
  - rewrite decide_False; [by apply IH|].
    intros Heq. apply Hr. rewrite Heq. by apply list_elem_of_fmap_2.
Qed.

End keyed_rows.

Lemma get_by_email_none c email :
  (∀ u, u ∈ rows (database c) → User.email u ≠ Some email) →
  UserRepository.get_by_email email c = (Ok None, c).
Proof.
  intros Hno. unfold UserRepository.get_by_email, session.execute_select, bind.
  by rewrite (filter_key_absent User.email (Some email)).
Qed.

Lemma get_by_email_some c email u :
  db_wf (database c) → u ∈ rows (database c) → User.email u = Some email →
  UserRepository.get_by_email email c = (Ok (Some u), c).
Proof.
  intros (_ & _ & Hnd & _) Hin He.
  unfold UserRepository.get_by_email, session.execute_select, bind.
  rewrite <- He. by rewrite (filter_key_unique User.email u).
Qed.

(** Under the table's constraints the lookup by e-mail never raises: it
    finds the holder of the address or nothing. *)
Lemma get_by_email_cases c email :
  db_wf (database c) →
  (∃ u, u ∈ rows (database c) ∧ User.email u = Some email
        ∧ UserRepository.get_by_email email c = (Ok (Some u), c))
  ∨ ((∀ u, u ∈ rows (database c) → User.email u ≠ Some email)
     ∧ UserRepository.get_by_email email c = (Ok None, c)).
Proof.
  intros Hwf.
  destruct (decide (Exists (λ u, User.email u = Some email) (rows (database c))))
    as [Hex|Hno].
  - apply Exists_exists in Hex as (u & Hin & He). left. exists u.
    split_and!; [done..|]. by apply get_by_email_some.
  - right. assert (∀ u, u ∈ rows (database c) → User.email u ≠ Some email) as H.
    { intros u Hin He. apply Hno, Exists_exists. eauto. }
    split; [done|]. by apply get_by_email_none.
Qed.

Lemma get_by_id_none c user_id :
  (∀ u, u ∈ rows (database c) → User.id u ≠ user_id) →
  UserRepository.get_by_id user_id c
  = (Ok None,
     with_record c (mkLog UserRepository.logger DEBUG
                      ("User with id=" +:+ pretty user_id +:+ " not found"))).
Proof.
  intros Hno. unfold UserRepository.get_by_id, session.execute_select, bind.
  by rewrite (filter_key_absent User.id user_id).
Qed.

Lemma get_by_id_some c u :
  NoDup (User.id <$> rows (database c)) → u ∈ rows (database c) →
  UserRepository.get_by_id (User.id u) c
  = (Ok (Some u),
     with_record c (mkLog UserRepository.logger DEBUG
                      ("Found user with id=" +:+ pretty (User.id u)))).
Proof.
  intros Hnd Hin. unfold UserRepository.get_by_id, session.execute_select, bind.
  by rewrite (filter_key_unique User.id u).
Qed.

(** What a successful lookup by id says about the table: the row is stored
    under that id and is the only one. *)
Lemma get_by_id_inv c user_id u c' :
  UserRepository.get_by_id user_id c = (Ok (Some u), c') →
  filter (λ r, User.id r = user_id) (rows (database c)) = [u]
  ∧ database c' = database c.
Proof.
  unfold UserRepository.get_by_id, session.execute_select. run.
  destruct (filter _ _) as [|r [|r' l]]; run; intros Heq; by simplify_eq.
Qed.



(** C4 (failing input). No user of the sample table holds [long_email], a
    well-formed address of 127 characters, yet the create request that
    carries it is not answered 201: the INSERT fails on the 100-character
    column, nothing catches the error, and the request is answered 500 with
    no user created. *)
Theorem create_user_long_email_answers_500 :
  (∀ u, u ∈ rows (database sample_ctx) → User.email u ≠ Some long_email)
  ∧ len long_email = 127%nat
  ∧ ∃ c',
      POST_users 1735689600 (UserCreate.mk "Jane Doe" long_email None) sample_ctx
      = (mkResponse HTTP_500_INTERNAL_SERVER_ERROR
           (BDetail "Internal Server Error"), c')
      ∧ database c' = database sample_ctx.
Proof.
  split; [|split].
  - intros u Hu. cbn in Hu. apply list_elem_of_In in Hu.
    destruct Hu as [<-|[<-|[]]]; vm_compute; discriminate.
  - vm_compute. reflexivity.
  - eexists. split; [vm_compute; reflexivity|reflexivity].
Qed.

(** Two rows of a table with unique keys that agree on the key are the same
    row. *)
Lemma unique_key_inj {K : Type} `{EqDecision K} (key : User.t → K) l r u :
  NoDup (key <$> l) → r ∈ l → u ∈ l → key r = key u → r = u.
Proof.
  intros Hnd Hr Hu Heq.
  assert (r ∈ filter (λ r', key r' = key u) l) as Hin
    by (apply list_elem_of_filter; done).
  rewrite (filter_key_unique key u l Hnd Hu) in Hin.
  by apply list_elem_of_singleton in Hin.
Qed.

(** Under the table's constraints the check raises 409 exactly when another
    user holds the requested address, and otherwise passes; it never writes. *)
Lemma email_check_cases user_id user_data c :
  db_wf (database c) →
  (held_by_other user_id user_data (database c)
   ∧ ∃ email, UserUpdate.email_truthy user_data = Some email
      ∧ user_routes.email_check user_id user_data c
        = (Raise (HTTPException HTTP_409_CONFLICT
                    ("User with email " +:+ email +:+ " already exists")), c))
  ∨ (¬ held_by_other user_id user_data (database c)
     ∧ user_routes.email_check user_id user_data c = (Ok tt, c)).
Proof.
  intros Hwf. unfold user_routes.email_check, held_by_other.
  destruct (UserUpdate.email_truthy user_data) as [email|] eqn:Htruthy.
  - destruct (get_by_email_cases c email Hwf) as [(u & Hin & He & Hget)|[Hno Hget]].
    + rewrite (bind_ok _ _ _ _ _ Hget).
      destruct (decide (User.id u ≠ user_id)) as [Hne|Heq].
      * left. split; [by exists email, u|]. by exists email.
      * right. split; [|done]. intros (email' & u' & Heq' & Hin' & He' & Hne').
        simplify_eq. apply Hne'. apply dec_stable in Heq. rewrite <- Heq.
        destruct Hwf as (_ & _ & Hnd & _). f_equal.
        apply (unique_key_inj User.email (rows (database c))); [done..|congruence].
    + rewrite (bind_ok _ _ _ _ _ Hget). right. split; [|done].
      intros (email' & u' & Heq' & Hin' & He' & _). simplify_eq. by eapply Hno.
  - right. split; [|done]. by intros (? & ? & ? & _).
Qed.

(** [update] on an id that selects no row: nothing is written. *)
Lemma update_none c now user_id user_data :
  (∀ u, u ∈ rows (database c) → User.id u ≠ user_id) →
  ∃ c', UserRepository.update now user_id user_data c = (Ok None, c')
        ∧ database c' = database c.
Proof.
  intros Hno. unfold UserRepository.update.
  rewrite (bind_ok _ _ _ _ _ (get_by_id_none _ _ Hno)). by eexists.
Qed.

(** C5 (as amended). For an id under which no user is stored, GET and
    DELETE answer 404 Not Found, and PUT answers 404 unless its payload
    carries a non-empty e-mail that a stored user holds, in which case the
    check that runs first answers 409 Conflict; none of the three changes
    the table. *)
Theorem missing_user_404_unless_email_conflict now user_id user_data c :
  db_wf (database c) →
  (∀ u, u ∈ rows (database c) → User.id u ≠ user_id) →
  (GET_user user_id c).1 = not_found user_id
  ∧ database (GET_user user_id c).2 = database c
  ∧ (DELETE_user user_id c).1 = not_found user_id
  ∧ database (DELETE_user user_id c).2 = database c
  ∧ database (PUT_user now user_id user_data c).2 = database c
  ∧ (¬ held_by_other user_id user_data (database c) →
     (PUT_user now user_id user_data c).1 = not_found user_id)
  ∧ (held_by_other user_id user_data (database c) →
     status_code (PUT_user now user_id user_data c).1 = HTTP_409_CONFLICT).
Proof.
  intros Hwf Hno.
  assert (∀ A (k : option User.t → M Ctx A),
            bind (UserRepository.get_by_id user_id) k c
            = k None (with_record c (mkLog UserRepository.logger DEBUG
                        ("User with id=" +:+ pretty user_id +:+ " not found"))))
    as Hget.
  { intros. by rewrite (bind_ok _ _ _ _ _ (get_by_id_none _ _ Hno)). }
  split_and!.
  - unfold GET_user, serve, get_db, try_except, user_routes.get_user.
    by rewrite Hget.
  - unfold GET_user, serve, get_db, try_except, user_routes.get_user.
    by rewrite Hget.
  - unfold DELETE_user, serve, get_db, try_except, user_routes.delete_user,
      UserRepository.delete.
    by rewrite (bind_ok _ _ _ _ _ (bind_ok _ _ _ _ _ (get_by_id_none _ _ Hno))).
  - unfold DELETE_user, serve, get_db, try_except, user_routes.delete_user,
      UserRepository.delete.
    by rewrite (bind_ok _ _ _ _ _ (bind_ok _ _ _ _ _ (get_by_id_none _ _ Hno))).
  - unfold PUT_user, serve, get_db, try_except, user_routes.update_user.
    destruct (email_check_cases user_id user_data c Hwf)
      as [(_ & email & _ & Hchk)|[_ Hchk]].
    + by rewrite (bind_raise _ _ _ _ _ Hchk).
    + rewrite (bind_ok _ _ _ _ _ Hchk).
      destruct (update_none c now user_id user_data Hno) as (c' & Hupd & Hdb).
      by rewrite (bind_ok _ _ _ _ _ Hupd).
  - intros Hfree.
    unfold PUT_user, serve, get_db, try_except, user_routes.update_user.
    destruct (email_check_cases user_id user_data c Hwf)
      as [(Hheld & _)|[_ Hchk]]; [done|].
    rewrite (bind_ok _ _ _ _ _ Hchk).
    destruct (update_none c now user_id user_data Hno) as (c' & Hupd & Hdb).
    by rewrite (bind_ok _ _ _ _ _ Hupd).
  - intros Hheld.
    unfold PUT_user, serve, get_db, try_except, user_routes.update_user.
    destruct (email_check_cases user_id user_data c Hwf)
      as [(_ & email & _ & Hchk)|[Hfree _]]; [|done].
    by rewrite (bind_raise _ _ _ _ _ Hchk).
Qed.

(** C5 (counterexample). No user has id 999, John holds
    john@example.com: PUT /api/users/999 with that e-mail is answered 409,
    not 404. *)
Lemma put_missing_user_answers_409 :
  db_wf (database sample_ctx)
  ∧ (∀ u, u ∈ rows (database sample_ctx) → User.id u ≠ 999%Z)
  ∧ status_code
      (PUT_user 0 999 (UserUpdate.mk None (Some (Some "john@example.com")) None)
                sample_ctx).1 = HTTP_409_CONFLICT
  ∧ HTTP_409_CONFLICT ≠ HTTP_404_NOT_FOUND.
Proof.
  split_and!.
  - compute_done.
  - apply Forall_forall. compute_done.
  - vm_compute. reflexivity.
  - compute_done.
Qed.

Lemma model_validate_ok u :
  session.not_null u → ∃ r, UserResponse.model_validate u = Ok r.
Proof.
  intros [[n Hn] [e He]]. unfold UserResponse.model_validate.
  rewrite Hn, He. by eexists.
Qed.

(** Each [setattr] of the update loop leaves [id] alone. *)
Lemma setattr_loop_id u (update_data : list (Field * option string)) :
  User.id (foldl (λ u fv, setattr u fv.1 fv.2) u update_data) = User.id u.
Proof.
  revert u. induction update_data as [|[f v] l IH]; intros u; [done|].
  simpl. rewrite IH. by destruct f.
Qed.

(** The row after the loop: a set field takes the payload's value, an
    unset field keeps the loaded one. *)
Lemma updated_row_fields u user_data :
  updated_row u user_data
  = User.mk (User.id u)
            (default (User.name u) (UserUpdate.name user_data))
            (default (User.email u) (UserUpdate.email user_data))
            (default (User.bio u) (UserUpdate.bio user_data))
            (User.created_at u) (User.updated_at u).
Proof. destruct u, user_data as [[?|] [?|] [?|]]; reflexivity. Qed.

(** [update] on the id of a stored row: the loop, then the commit. *)
Lemma update_found now u user_data c :
  NoDup (User.id <$> rows (database c)) → u ∈ rows (database c) →
  UserRepository.update now (User.id u) user_data c
  = match session.commit_update now u (updated_row u user_data)
            (with_record c (mkLog UserRepository.logger DEBUG
                              ("Found user with id=" +:+ pretty (User.id u))))
    with
    | (Ok user, c') =>
        (Ok (Some user),
         with_record c' (mkLog UserRepository.logger INFO
                           ("Updated user with id=" +:+ pretty (User.id u))))
    | (Raise e, c') => (Raise e, c')
    end.
Proof.
  intros Hnd Hin. unfold UserRepository.update.
  rewrite (bind_ok _ _ _ _ _ (get_by_id_some _ _ Hnd Hin)).
  unfold bind, updated_row. by destruct (session.commit_update _ _ _ _) as [[?|?] ?].
Qed.

(** What a committed update returns and stores. *)
Lemma commit_update_ok now old new c user c' :
  session.commit_update now old new c = (Ok user, c') →
  User.id user = User.id new ∧ User.name user = User.name new
  ∧ User.email user = User.email new ∧ User.bio user = User.bio new
  ∧ User.created_at user = User.created_at new
  ∧ records c' = records c
  ∧ autoincrement (database c') = autoincrement (database c)
  ∧ ((new = old ∧ user = old ∧ c' = c)
     ∨ (session.not_null user
        ∧ rows (database c')
          = (λ r, if decide (User.id r = User.id new) then user else r)
              <$> rows (database c))).
Proof.
  unfold session.commit_update.
  destruct (decide (new = old)) as [->|Hne].
  - intros Heq. simplify_eq. split_and!; try done. by left.
  - destruct (decide _) as [|_]; [intros Heq; simplify_eq|].
    destruct (decide _) as [[Hnn Hall]|]; intros Heq; simplify_eq.
    split_and!; try done. by right.
Qed.

(** The constraints accept an update that keeps the row's own e-mail and
    leaves [name] non-null. *)
Lemma commit_update_allowed now old new c :
  session.not_null new →
  User.email new = User.email old →
  Forall (λ r, User.id r ≠ User.id new → User.email r ≠ User.email new)
         (rows (database c)) →
  ∃ user c', session.commit_update now old new c = (Ok user, c').
Proof.
  intros Hnn Hsame Hall. unfold session.commit_update.
  case_decide; [by eexists _, _|].
  rewrite decide_False by (intros (_ & Hne & _); by apply Hne).
  rewrite decide_True; [by eexists _, _|]. split; [|done].
  destruct Hnn as [? ?]. by split.
Qed.

(** A failed commit raises [DataError] or [IntegrityError] and writes
    nothing. *)
Lemma commit_update_raise now old new c e c' :
  session.commit_update now old new c = (Raise e, c') →
  (e = session.DataError "UPDATE users"
   ∨ e = IntegrityError "constraint violated on UPDATE users")
  ∧ c' = c.
Proof.
  unfold session.commit_update.
  destruct (decide (new = old)); [done|].
  destruct (decide _); [intros Heq; simplify_eq; by split; [left|]|].
  destruct (decide _); [done|]. intros Heq. simplify_eq. by split; [right|].
Qed.

(** [update] raises no [HTTPException] of its own: what it raises comes
    from the query or the commit. *)
Lemma update_raises_no_http now user_id user_data c e c' :
  UserRepository.update now user_id user_data c = (Raise e, c') →
  ∀ status detail, e ≠ HTTPException status detail.
Proof.
  unfold UserRepository.update, UserRepository.get_by_id, session.execute_select.
  run. destruct (filter _ _) as [|u [|u' l]]; run; intros Heq; simplify_eq; try done.
  destruct (session.commit_update _ _ _ _) as [[user|ex] c1] eqn:Hcommit;
    simplify_eq.
  apply commit_update_raise in Hcommit as [[-> | ->] _]; done.
Qed.

(** C9. An update that targets a stored user and carries that user's own
    current e-mail is not rejected by the duplicate check: the answer is
    never 409 (and is 200 unless the payload nulls [name]); and whenever an
    update is answered 409, a stored user with a different id holds the
    requested e-mail. *)
Theorem update_conflict_only_with_other_user now user_id user_data c :
  db_wf (database c) →
  (∀ u e, u ∈ rows (database c) → User.id u = user_id →
          User.email u = Some e → UserUpdate.email user_data = Some (Some e) →
          user_routes.email_check user_id user_data c = (Ok tt, c)
          ∧ status_code (PUT_user now user_id user_data c).1 ≠ HTTP_409_CONFLICT
          ∧ (UserUpdate.name user_data ≠ Some None →
             status_code (PUT_user now user_id user_data c).1 = HTTP_200_OK))
  ∧ (status_code (PUT_user now user_id user_data c).1 = HTTP_409_CONFLICT →
     held_by_other user_id user_data (database c)).
Proof.
  intros Hwf. split.
  - intros u e Hin Hid He Hpayload.
    assert (¬ held_by_other user_id user_data (database c)) as Hfree.
    { intros (e' & u' & Htruthy & Hin' & He' & Hne). apply Hne. rewrite <- Hid.
      unfold UserUpdate.email_truthy in Htruthy. rewrite Hpayload in Htruthy.
      case_decide; simplify_eq. destruct Hwf as (_ & _ & Hnd & _). f_equal.
      apply (unique_key_inj User.email (rows (database c))); [done..|congruence]. }
    destruct (email_check_cases user_id user_data c Hwf)
      as [(Hheld & _)|[_ Hchk]]; [done|].
    split; [done|].
    unfold PUT_user, serve, get_db, try_except, user_routes.update_user.
    rewrite (bind_ok _ _ _ _ _ Hchk). subst user_id.
    pose proof Hwf as (Hids & _ & Hemails & Hnn).
    rewrite Forall_forall in Hnn. specialize (Hnn u Hin).
    unfold bind. rewrite (update_found now u user_data c Hids Hin).
    destruct (session.commit_update _ _ _ _) as [[user|ex] c'] eqn:Hcommit.
    + apply commit_update_ok in Hcommit
        as (_ & Hname & Hemail & _ & _ & _ & _ & Hrow).
      assert (session.not_null user) as Hnn'.
      { destruct Hrow as [(_ & -> & _)|[? _]]; done. }
      destruct (model_validate_ok user Hnn') as [r Hr].
      unfold lift_res. rewrite Hr. done.
    + destruct (commit_update_raise _ _ _ _ _ _ Hcommit) as [Hex ->].
      split; [by destruct Hex as [-> | ->]|]. intros Hname. exfalso.
      destruct (commit_update_allowed now u (updated_row u user_data)
                  (with_record c (mkLog UserRepository.logger DEBUG
                     ("Found user with id=" +:+ pretty (User.id u)))))
        as (user & c' & Hok).
      * rewrite updated_row_fields. unfold session.not_null. simpl.
        rewrite Hpayload. simpl. split; [|by eexists].
        destruct (UserUpdate.name user_data) as [[n|]|]; simpl;
          [by eexists|done|apply Hnn].
      * rewrite updated_row_fields. simpl. rewrite Hpayload. simpl. congruence.
      * rewrite updated_row_fields. simpl. rewrite Hpayload. simpl.
        apply Forall_forall. intros r Hr Hne Heq. apply Hne. f_equal.
        apply (unique_key_inj User.email (rows (database c))); [done..|congruence].
      * rewrite Hok in Hcommit. discriminate.
  - intros H409.
    destruct (email_check_cases user_id user_data c Hwf)
      as [(Hheld & _)|[_ Hchk]]; [done|]. exfalso. revert H409.
    unfold PUT_user, serve, get_db, try_except, user_routes.update_user.
    rewrite (bind_ok _ _ _ _ _ Hchk). unfold bind.
    destruct (UserRepository.update _ _ _ _) as [[[user|]|ex] c'] eqn:Hupd.
    + unfold lift_res, UserResponse.model_validate.
      destruct (User.name user), (User.email user); by http.
    + by http.
    + pose proof (update_raises_no_http _ _ _ _ _ _ Hupd) as Hno.
      destruct ex as [|status detail| | | |]; try by http.
      by destruct (Hno status detail).
Qed.

(** C10. A successful [update] of a stored user changes only what the
    payload sets: each of [name], [email], [bio] that the payload leaves
    unset keeps its value, each one it sets takes the payload's value, and
    [id] (with [created_at]) is never changed; the row is stored back under
    the same id and no other row is touched. *)
Theorem update_changes_only_set_fields now user_id user_data c new c' :
  UserRepository.update now user_id user_data c = (Ok (Some new), c') →
  ∃ old, old ∈ rows (database c) ∧ User.id old = user_id
    ∧ User.id new = User.id old
    ∧ (UserUpdate.name user_data = None → User.name new = User.name old)
    ∧ (UserUpdate.email user_data = None → User.email new = User.email old)
    ∧ (UserUpdate.bio user_data = None → User.bio new = User.bio old)
    ∧ (∀ v, UserUpdate.name user_data = Some v → User.name new = v)
    ∧ (∀ v, UserUpdate.email user_data = Some v → User.email new = v)
    ∧ (∀ v, UserUpdate.bio user_data = Some v → User.bio new = v)
    ∧ User.created_at new = User.created_at old
    ∧ rows (database c')
      = (λ r, if decide (User.id r = user_id) then new else r)
          <$> rows (database c).
Proof.
  unfold UserRepository.update, bind.
  destruct (UserRepository.get_by_id user_id c) as [[[old|]|ex] c1] eqn:Hget;
    [|by run|done].
  apply get_by_id_inv in Hget as [Hsel Hdb].
  assert (old ∈ rows (database c) ∧ User.id old = user_id) as [Hin Hid].
  { assert (old ∈ filter (λ r, User.id r = user_id) (rows (database c))) as H
      by (rewrite Hsel; left).
    apply list_elem_of_filter in H as [? ?]. done. }
  fold (updated_row old user_data).
  destruct (session.commit_update _ _ _ _) as [[user|ex] c2] eqn:Hcommit;
    [|done].
  run. intros Heq. simplify_eq.
  apply commit_update_ok in Hcommit
    as (Hi & Hn & He & Hb & Hc & _ & _ & Hrows).
  rewrite updated_row_fields in Hi, Hn, He, Hb, Hc. simpl in *.
  exists old. split_and!; try done.
  - intros H. by rewrite Hn, H.
  - intros H. by rewrite He, H.
  - intros H. by rewrite Hb, H.
  - intros v H. by rewrite Hn, H.
  - intros v H. by rewrite He, H.
  - intros v H. by rewrite Hb, H.
  - destruct Hrows as [(_ & -> & ->)|[_ ->]].
    + rewrite Hdb. rewrite <- (list_fmap_id (rows (database c))) at 1.
      apply Forall_fmap_ext, Forall_forall. intros r Hr. simpl.
      case_decide as Hrid; [|done].
      assert (r ∈ filter (λ r, User.id r = User.id old) (rows (database c))) as H
        by (by apply list_elem_of_filter).
      rewrite Hsel in H. by apply list_elem_of_singleton in H.
    + rewrite Hdb, updated_row_fields. simpl. done.
Qed.

(* ================================================================== *)
(** * Properties: the readiness probe *)
(* ================================================================== *)

(** C6. [ready] always returns a response, never raises: 200 with the
    "ready" body exactly when the probe query returns, and 503 with the
    "not ready" body carrying [str(e)] when the probe raises [e]. *)
Theorem ready_answers_200_or_503 (execute_select_1 : M Ctx unit) c :
  ∃ response c',
    health.ready execute_select_1 c = (Ok response, c')
    ∧ (GET_ready execute_select_1 c).1 = response
    ∧ ((∃ c1, execute_select_1 c = (Ok tt, c1))
       ↔ response = mkResponse HTTP_200_OK
                      (BJson [("status", "ready"); ("database", "connected")]))
    ∧ ((∃ c1, execute_select_1 c = (Ok tt, c1))
       ↔ status_code response = HTTP_200_OK)
    ∧ (∀ e c1, execute_select_1 c = (Raise e, c1) →
         response = mkResponse HTTP_503_SERVICE_UNAVAILABLE
                      (BJson [("status", "not ready");
                              ("database", "disconnected");
                              ("error", exn_str e)])).
Proof.
  unfold GET_ready, serve_response, get_db, health.ready. run.
  destruct (execute_select_1 c) as [[[]|e] c1] eqn:Hprobe.
  - eexists _, _. split_and!; [done..| | |done]; split; eauto.
  - eexists _, _. split_and!; [done..| | |].
    + split; [by intros [? ?]|by http].
    + split; [by intros [? ?]|by http].
    + intros e' c1' Heq. by simplify_eq.
Qed.

(* ================================================================== *)
(** * Properties: telemetry setup *)
(* ================================================================== *)

(** C2. When a signal's flag is false, [setup_telemetry] returns having
    left that signal's process-wide provider as it was: none of the events
    it adds constructs, attaches, registers or instruments anything for
    that signal (and with logging disabled the logging tree is untouched);
    every signal whose flag is true still gets its exporter and provider
    constructed and the provider registered. *)
Theorem disabled_signal_untouched settings w sig :
  enabled sig settings = false →
  ∃ w' evs,
    telemetry.setup_telemetry settings w = (Ok tt, w')
    ∧ events w' = events w ++ evs
    ∧ providers w' sig = providers w sig
    ∧ Forall (λ e, event_signal e ≠ Some sig) evs
    ∧ (sig = Logging → logging w' = logging w)
    ∧ (∀ sig', enabled sig' settings = true →
         ∃ p x po xo,
           providers w' sig' = mkProvider p true
           ∧ (New p po ∈ evs ∧ is_provider sig' po)
           ∧ (New x xo ∈ evs ∧ is_exporter sig' xo)
           ∧ SetProvider sig' p ∈ evs).
Proof.
  intros Hoff. destruct w as [env cache n lg provs fault evs0].
  destruct settings as [? ? ? ? ? ? ? ? ? ? ? ? ? tracing metrics logs].
  unfold telemetry.setup_telemetry, telemetry.setup_tracing,
    telemetry.setup_metrics, telemetry.setup_log_export, logging_.addHandler.
  destruct sig, tracing, metrics, logs; try discriminate Hoff; wrun;
    (eexists _, _; split; [reflexivity|]; wrun;
     split; [rewrite <- !app_assoc; reflexivity|];
     split; [reflexivity|];
     split; [repeat constructor; discriminate|];
     split; [try discriminate; reflexivity|];
     intros [] Hon; try discriminate Hon;
     eexists _, _, _, _; (split; [reflexivity|]);
     (split; [split; [mem|]; exact I|]);
     (split; [split; [mem|]; exact I|]); mem).
Qed.

(* ================================================================== *)
(** * Properties: logging setup *)
(* ================================================================== *)

Lemma get_settings_spec env cache n lg provs fault evs :
  get_settings (mkWorld env cache n lg provs fault evs)
  = (Ok (default env cache),
     mkWorld env (Some (default env cache)) n lg provs fault
             (evs ++ get_settings_trace cache)).
Proof.
  unfold get_settings. destruct cache; wrun; simpl; by rewrite <- !app_assoc.
Qed.

Lemma remove_handlers_loop env cache n rl lv provs fault evs (hs rest : list Handler) :
  for_each hs logging_.removeHandler
    (mkWorld env cache n (mkLogging rl (hs ++ rest) lv) provs fault evs)
  = (Ok tt, mkWorld env cache n (mkLogging rl rest lv) provs fault evs).
Proof.
  induction hs as [|h hs IH]; [done|].
  simpl. unfold logging_.removeHandler at 1. wrun.
  unfold logging_.has_handler. rewrite bool_decide_true by (by left).
  simpl. rewrite decide_True by done. apply IH.
Qed.
Lemma remove_handlers_all env cache n rl lv provs fault evs (hs : list Handler) :
  for_each hs logging_.removeHandler
    (mkWorld env cache n (mkLogging rl hs lv) provs fault evs)
  = (Ok tt, mkWorld env cache n (mkLogging rl [] lv) provs fault evs).
Proof.
  pose proof (remove_handlers_loop env cache n rl lv provs fault evs hs []) as H.
  by rewrite app_nil_r in H.
Qed.

Lemma setup_logging_spec env cache n lg provs fault evs lvl :
  names_level (Settings.log_level (default env cache)) lvl →
  setup_logging (mkWorld env cache n lg provs fault evs)
  = (Ok tt,
     mkWorld env (Some (default env cache)) (S (S n))
       (mkLogging lvl [console_handler n lvl]
          (<["uvicorn.error" := INFO]> (<["uvicorn.access" := WARNING]> (levels lg))))
       provs fault (evs ++ setup_logging_trace cache n)).
Proof.
  intros Hlvl. unfold names_level in Hlvl. unfold setup_logging, call.
  wrun. rewrite get_settings_spec.
  unfold logging_.root_setLevel, logging_._checkLevel. rewrite Hlvl.
  wrun. destruct lg as [rl hs lv]. wrun.
  rewrite remove_handlers_all.
  unfold logging_.addHandler, logging_.setLevel. wrun. simpl.
  unfold setup_logging_trace. rewrite <- !app_assoc. reflexivity.
Qed.

(** A level name that [logging] does not know: [setup_logging] raises
    [ValueError] at its first [setLevel], before it touches a handler. *)
Lemma setup_logging_unknown_level env cache n lg provs fault evs :
  logging_.assoc (logging_.upper (Settings.log_level (default env cache)))
                 logging_._nameToLevel = None →
  ∃ msg evs',
    setup_logging (mkWorld env cache n lg provs fault evs)
    = (Raise (ValueError msg),
       mkWorld env (Some (default env cache)) n lg provs fault evs').
Proof.
  intros Hlvl. unfold setup_logging, call.
  wrun. rewrite get_settings_spec.
  unfold logging_.root_setLevel, logging_._checkLevel. rewrite Hlvl.
  wrun. by eexists _, _.
Qed.

Lemma setup_logging_idem_aux k : ∀ env cache n lg provs fault evs lvl,
  names_level (Settings.log_level (default env cache)) lvl →
  ∃ n' lv evs',
    repeat_call (S k) setup_logging (mkWorld env cache n lg provs fault evs)
    = (Ok tt,
       mkWorld env (Some (default env cache)) (S (S n'))
               (mkLogging lvl [console_handler n' lvl] lv) provs fault evs')
    ∧ (n ≤ n')%nat
    ∧ lv !! "uvicorn.access" = Some WARNING
    ∧ lv !! "uvicorn.error" = Some INFO.
Proof.
  induction k as [|k IH]; intros env cache n lg provs fault evs lvl Hlvl.
  - exists n. eexists _, _. split_and!; [|lia|..].
    + change (repeat_call 1 setup_logging) with (setup_logging ;;; ret tt).
      by rewrite (bind_ok _ _ _ _ _ (setup_logging_spec _ _ _ _ _ _ _ _ Hlvl)).
    + by simplify_map_eq.
    + by simplify_map_eq.
  - change (repeat_call (S (S k)) setup_logging)
      with (setup_logging ;;; repeat_call (S k) setup_logging).
    rewrite (bind_ok _ _ _ _ _ (setup_logging_spec _ _ _ _ _ _ _ _ Hlvl)).
    edestruct (IH env (Some (default env cache)) (S (S n))) as (n' & lv & evs' & Hrun & Hle & Ha & He);
      [exact Hlvl|].
    simpl in Hrun. exists n', lv, evs'. split_and!; [exact Hrun|lia|done..].
Qed.

(** C8. After any number [k+1] of consecutive calls of [setup_logging]
    the root logger holds exactly one handler, the console handler, built
    during these calls (so every handler attached before is gone), at the
    configured level, which is also the root logger's; [uvicorn.access] is
    at WARNING and [uvicorn.error] at INFO. *)
Theorem setup_logging_idempotent k w lvl :
  names_level (Settings.log_level (resolved_settings w)) lvl →
  ∃ w' h,
    repeat_call (S k) setup_logging w = (Ok tt, w')
    ∧ root_handlers (logging w') = [h]
    ∧ is_console h ∧ h_level h = lvl ∧ (next_obj w ≤ h_id h)%nat
    ∧ root_level (logging w') = lvl
    ∧ levels (logging w') !! "uvicorn.access" = Some WARNING
    ∧ levels (logging w') !! "uvicorn.error" = Some INFO
    ∧ providers w' = providers w.
Proof.
  destruct w as [env cache n lg provs fault evs]. intros Hlvl.
  destruct (setup_logging_idem_aux k env cache n lg provs fault evs lvl Hlvl)
    as (n' & lv & evs' & Hrun & Hle & Ha & He).
  eexists _, _. split; [exact Hrun|]. simpl. split_and!; done.
Qed.

(* ================================================================== *)
(** * Properties: the startup run *)
(* ================================================================== *)

Lemma has_handler_other id h :
  h_id h ≠ id → logging_.has_handler id [h] = false.
Proof.
  intros Hne. unfold logging_.has_handler. apply bool_decide_false.
  intros Hex. apply Exists_cons in Hex as [?|Hex]; [done|].
  by apply Exists_nil in Hex.
Qed.

(** A startup run, symbolically: it returns, with these bracketing events
    and these handlers on the root logger. *)
Lemma startup_spec env cache n lg provs fault evs0 lvl :
  names_level (Settings.log_level (default env cache)) lvl →
  ∃ g w' evs hs,
    main.startup (mkWorld env cache n lg provs fault evs0) = (Ok g, w')
    ∧ main.settings g = default env cache
    ∧ events w' = evs0 ++ evs
    ∧ steps evs = startup_steps cache
    ∧ root_handlers (logging w') = console_handler (S n) lvl :: hs
    ∧ (Settings.otel_enable_logging (default env cache) = true →
       ∃ h, hs = [h] ∧ is_otlp_bridge h)
    ∧ (Settings.otel_enable_logging (default env cache) = false → hs = []).
Proof.
  intros Hlvl.
  unfold main.startup, main.import_main, import_database, main.lifespan_startup,
    telemetry.instrument_fastapi, telemetry.instrument_sqlalchemy.
  wrun. rewrite get_settings_spec. wrun.
  rewrite (setup_logging_spec env (Some (default env cache)) _ _ _ _ _ lvl Hlvl). wrun.
  rewrite get_settings_spec. wrun.
  unfold telemetry.setup_telemetry, telemetry.setup_tracing,
    telemetry.setup_metrics, telemetry.setup_log_export, logging_.addHandler.
  remember (default env cache) as s eqn:Hs. clear Hs Hlvl.
  cbv [main.settings main.engine main.app from_option id].
  destruct s as [? ? ? ? ? ? ? ? ? ? ? ? ? tracing metrics logs].
  destruct tracing, metrics, logs; wrun;
    rewrite ?has_handler_other by (simpl; lia);
    (eexists _, _, _, _; split; [reflexivity|]; wrun;
     split; [reflexivity|];
     split; [rewrite <- !app_assoc; reflexivity|];
     split; [by destruct cache|];
     split; [reflexivity|];
     split; [intros ?; try discriminate; by eexists|
             intros ?; try discriminate; reflexivity]).
Qed.

(* ================================================================== *)
(** * Properties: shutdown *)
(* ================================================================== *)

(** C3 (as amended). [shutdown_telemetry] runs the three [hasattr] blocks in
    sequence (tracer, meter, logger) and has no handler for exceptions: a
    provider without [shutdown] is skipped without effect on the others; a
    provider's hook is called exactly when the provider has one and no
    hook called before it raised; the function returns normally exactly
    when no hook raises, and otherwise the hook's exception propagates to
    the caller; nothing is logged but the INFO line after each successful
    hook. *)
Theorem shutdown_stops_at_first_failure w :
  ∃ r w' evs,
    telemetry.shutdown_telemetry w = (r, w')
    ∧ events w' = events w ++ evs
    ∧ providers w' = providers w
    ∧ (r = Ok tt ↔
       ∀ sig, has_shutdown (providers w sig) = true →
              shutdown_fault w (prov_id (providers w sig)) = None)
    ∧ (∀ sig, ProviderShutdown sig (prov_id (providers w sig)) ∈ evs ↔
         has_shutdown (providers w sig) = true
         ∧ ∀ sig', earlier sig' sig → has_shutdown (providers w sig') = true →
                   shutdown_fault w (prov_id (providers w sig')) = None)
    ∧ (∀ e, r = Raise e →
         ∃ sig, has_shutdown (providers w sig) = true
                ∧ shutdown_fault w (prov_id (providers w sig)) = Some e)
    ∧ (∀ rec, Logged rec ∈ evs → log_levelno rec = INFO).
Proof.
  destruct w as [env cache n lg provs fault evs0].
  unfold telemetry.shutdown_telemetry, telemetry.shutdown_one,
    telemetry.provider_shutdown.
  wrun.
  destruct (provs Tracing) as [t ht] eqn:HT, (provs Metrics) as [m hm] eqn:HM,
    (provs Logging) as [l hl] eqn:HL.
  cbn [prov_id has_shutdown].
  destruct (fault t) as [et|] eqn:FT, (fault m) as [em|] eqn:FM,
    (fault l) as [el|] eqn:FL; destruct ht, hm, hl;
  repeat (progress (wrun; cbn [prov_id has_shutdown]; rewrite ?HT, ?HM, ?HL, ?FT, ?FM, ?FL));
  (eexists _, _, _; split; [reflexivity|]; wrun;
   split; [rewrite <- ?app_assoc; reflexivity|];
   split; [reflexivity|]; cbn [app]; split_and!;
   [ split;
     [ intros Hr [] Hhas; rewrite ?HT, ?HM, ?HL in *; simpl in *; congruence
     | intros H; at_each_signal H; rewrite ?HT, ?HM, ?HL in *; simpl in *;
       first [done | exfalso; naive_solver] ]
   | intros sig; rewrite !elem_of_cons, elem_of_nil; split;
     [ intros Hin; destruct sig; rewrite ?HT, ?HM, ?HL in *; simpl in *;
       (split; [naive_solver|]); intros [] He Hhas;
       rewrite ?HT, ?HM, ?HL in *; simpl in *; naive_solver
     | intros [Hhas H]; at_each_signal H; destruct sig;
       rewrite ?HT, ?HM, ?HL in *; simpl in *; naive_solver ]
   | intros e Hr; simplify_eq;
     first [ by (exists Tracing; rewrite HT)
           | by (exists Metrics; rewrite HM)
           | by (exists Logging; rewrite HL) ]
   | intros rec; rewrite !elem_of_cons, elem_of_nil; naive_solver ]).
Qed.

(* ================================================================== *)
(** * Properties: order of the startup steps, handlers after startup *)
(* ================================================================== *)

(** C1 (counterexample). In the startup run of a fresh process with the
    default settings, [instrument_fastapi] is entered, and has returned,
    before [setup_telemetry] is entered: no [Enter Cinstrument_fastapi]
    follows the exit of [setup_telemetry]. *)
Lemma fastapi_instrumented_before_telemetry_setup :
  let run := main.startup (initial_world Settings.default no_fault) in
  (∃ g, run.1 = Ok g)
  ∧ occurs_before (Exit Csetup_telemetry) (Enter Cinstrument_fastapi)
                  (events run.2) = false
  ∧ occurs_before (Exit Cinstrument_fastapi) (Enter Csetup_telemetry)
                  (events run.2) = true
  ∧ occurs_before SettingsBuilt (Enter Csetup_logging) (events run.2) = true.
Proof.
  intros run. subst run. split_and!; [vm_compute; by eexists|vm_compute; reflexivity..].
Qed.

(** C1 (as amended). A startup run returns, and its steps are, in order:
    settings resolution (the first [get_settings], at the import of
    app.database), logging setup, a cached [get_settings], HTTP
    instrumentation -- all three at the import of app.main -- and then, in
    the lifespan, telemetry provider setup and data-access instrumentation.
    So [setup_telemetry] has returned before [instrument_sqlalchemy] is
    entered, and [instrument_fastapi] has returned before
    [setup_telemetry] is entered. *)
Theorem startup_order w lvl :
  names_level (Settings.log_level (resolved_settings w)) lvl →
  ∃ g w' evs,
    main.startup w = (Ok g, w')
    ∧ events w' = events w ++ evs
    ∧ steps evs = startup_steps (settings_cache w)
    ∧ (settings_cache w = None →
       occurs_before SettingsBuilt (Enter Csetup_logging) (steps evs) = true)
    ∧ occurs_before (Exit Csetup_logging) (Enter Cinstrument_fastapi)
                    (steps evs) = true
    ∧ occurs_before (Exit Cinstrument_fastapi) (Enter Csetup_telemetry)
                    (steps evs) = true
    ∧ occurs_before (Exit Csetup_telemetry) (Enter Cinstrument_sqlalchemy)
                    (steps evs) = true
    ∧ occurs_before (Exit Csetup_telemetry) (Enter Cinstrument_fastapi)
                    (steps evs) = false.
Proof.
  destruct w as [env cache n lg provs fault evs0]. intros Hlvl.
  destruct (startup_spec env cache n lg provs fault evs0 lvl Hlvl)
    as (g & w' & evs & hs & Hrun & _ & Hevs & Hsteps & _).
  exists g, w', evs. split; [done|]. split; [done|]. split; [done|].
  rewrite Hsteps. simpl. split_and!.
  - by intros ->.
  - by destruct cache.
  - by destruct cache.
  - by destruct cache.
  - by destruct cache.
Qed.

(** The startup order, at a fresh process with the default settings. *)
Lemma startup_order_witness :
  ∃ g w' evs,
    main.startup (initial_world Settings.default no_fault) = (Ok g, w')
    ∧ events w' = [] ++ evs
    ∧ steps evs = startup_steps None.
Proof.
  destruct (startup_order (initial_world Settings.default no_fault) INFO)
    as (g & w' & evs & H1 & H2 & H3 & _).
  - reflexivity.
  - exists g, w', evs. split_and!; done.
Defined.

Lemma has_handler_fresh k id hs :
  Forall (λ h, (h_id h < k)%nat) hs → (k ≤ id)%nat →
  logging_.has_handler id hs = false.
Proof.
  intros Hall Hle. unfold logging_.has_handler. apply bool_decide_false.
  intros Hex. apply Exists_exists in Hex as (h & Hin & Heq).
  rewrite Forall_forall in Hall. specialize (Hall h Hin). lia.
Qed.

(** C7. [setup_logging] installs the console handler on the root logger
    whatever the value of [otel_enable_logging]; in a startup run the root
    logger ends with the console handler, and with an OTLP bridge handler
    if and only if [otel_enable_logging] is true; [setup_telemetry] itself
    leaves the root logger's handlers alone when the flag is false and
    appends the bridge handler when it is true. *)
Theorem console_always_otlp_bridge_gated w lvl :
  names_level (Settings.log_level (resolved_settings w)) lvl →
  (∃ w1, setup_logging w = (Ok tt, w1)
         ∧ root_handlers (logging w1) = [console_handler (next_obj w) lvl]
         ∧ is_console (console_handler (next_obj w) lvl))
  ∧ (∃ g w', main.startup w = (Ok g, w')
       ∧ Exists (λ h, is_console h ∧ h_level h = lvl) (root_handlers (logging w'))
       ∧ (Exists is_otlp_bridge (root_handlers (logging w'))
          ↔ Settings.otel_enable_logging (resolved_settings w) = true))
  ∧ (∀ settings w0,
       Settings.otel_enable_logging settings = false →
       root_handlers (logging (telemetry.setup_telemetry settings w0).2)
       = root_handlers (logging w0))
  ∧ (∀ settings w0,
       Settings.otel_enable_logging settings = true →
       Forall (λ h, (h_id h < next_obj w0)%nat) (root_handlers (logging w0)) →
       ∃ h, is_otlp_bridge h
            ∧ root_handlers (logging (telemetry.setup_telemetry settings w0).2)
              = root_handlers (logging w0) ++ [h]).
Proof.
  destruct w as [env cache n lg provs fault evs0]. intros Hlvl. split_and!.
  - eexists. split; [by apply setup_logging_spec|]. done.
  - destruct (startup_spec env cache n lg provs fault evs0 lvl Hlvl)
      as (g & w' & evs & hs & Hrun & _ & _ & _ & Hhs & Hon & Hoff).
    exists g, w'. split; [done|]. rewrite Hhs. split; [by left|].
    unfold resolved_settings. simpl.
    destruct (Settings.otel_enable_logging (default env cache)).
    + destruct (Hon eq_refl) as (h & -> & Hh). split; [done|].
      intros _. right. by left.
    + rewrite (Hoff eq_refl). split; [|done].
      intros Hex. apply Exists_cons in Hex as [Hex|Hex].
      * done.
      * by apply Exists_nil in Hex.
  - intros settings [env0 cache0 n0 lg0 provs0 fault0 evs1] Hoff.
    destruct settings as [? ? ? ? ? ? ? ? ? ? ? ? ? tracing metrics logs].
    simpl in Hoff. subst logs.
    unfold telemetry.setup_telemetry, telemetry.setup_tracing,
      telemetry.setup_metrics.
    by destruct tracing, metrics; wrun.
  - intros settings [env0 cache0 n0 lg0 provs0 fault0 evs1] Hon Hfresh.
    destruct settings as [? ? ? ? ? ? ? ? ? ? ? ? ? tracing metrics logs].
    simpl in Hon, Hfresh. subst logs.
    unfold telemetry.setup_telemetry, telemetry.setup_tracing,
      telemetry.setup_metrics, telemetry.setup_log_export, logging_.addHandler.
    destruct tracing, metrics; wrun;
      rewrite (has_handler_fresh n0) by (done || simpl; lia);
      (eexists; split; [|reflexivity]; exact I).
Qed.

(** The console handler, at a fresh process with the default settings. *)
Lemma console_always_otlp_bridge_gated_witness :
  ∃ w1, setup_logging (initial_world Settings.default no_fault) = (Ok tt, w1)
        ∧ root_handlers (logging w1) = [console_handler 3 INFO].
Proof.
  destruct (console_always_otlp_bridge_gated
              (initial_world Settings.default no_fault) INFO)
    as [(w1 & H1 & H2 & _) _].
  - reflexivity.
  - exists w1. split; [exact H1|exact H2].
Defined.

(** C3 (counterexample). After a startup run with the default settings,
    the tracer provider's [shutdown] raises: [shutdown_telemetry] raises
    that exception to its caller, logs nothing, and never calls the meter
    and logger providers' hooks although both providers have one. *)
Lemma shutdown_failure_propagates :
  let w := (main.startup (initial_world Settings.default tracer_fails)).2 in
  let run := telemetry.shutdown_telemetry w in
  has_shutdown (providers w Metrics) = true
  ∧ has_shutdown (providers w Logging) = true
  ∧ run.1 = Raise (OtherException "Exception" "collector unreachable")
  ∧ events run.2
    = events w ++ [Enter Cshutdown_telemetry; ProviderShutdown Tracing 8]
  ∧ (ProviderShutdown Metrics (prov_id (providers w Metrics)) ∉ events run.2)
  ∧ (ProviderShutdown Logging (prov_id (providers w Logging)) ∉ events run.2).
Proof.
  intros w run. subst w run.
  split_and!; [vm_compute; reflexivity..|compute_done|compute_done].
Qed.

(* ================================================================== *)
(** * The statements at concrete inputs *)
(* ================================================================== *)

(** The three routes on id 999, which no sample user has. *)
Lemma missing_user_404_unless_email_conflict_witness :
  (GET_user 999 sample_ctx).1 = not_found 999
  ∧ (DELETE_user 999 sample_ctx).1 = not_found 999
  ∧ database (PUT_user 0 999 (UserUpdate.mk (Some (Some "John Updated")) None None)
                       sample_ctx).2 = database sample_ctx.
Proof.
  destruct (missing_user_404_unless_email_conflict 0 999
              (UserUpdate.mk (Some (Some "John Updated")) None None) sample_ctx)
    as (Hget & _ & Hdel & _ & Hput & _).
  - compute_done.
  - apply Forall_forall. compute_done.
  - done.
Defined.

(** John updates himself with his own address. *)
Lemma update_conflict_only_with_other_user_witness :
  status_code
    (PUT_user 0 1 (UserUpdate.mk None (Some (Some "john@example.com")) None)
              sample_ctx).1 = HTTP_200_OK.
Proof.
  destruct (update_conflict_only_with_other_user 0 1
              (UserUpdate.mk None (Some (Some "john@example.com")) None)
              sample_ctx) as [Hown _].
  - compute_done.
  - destruct (Hown john "john@example.com") as (_ & _ & H200);
      [compute_done|reflexivity..|].
    by apply H200.
Defined.

(** The partial update of the repository's tests: only [bio] is set. *)
Lemma update_changes_only_set_fields_witness :
  ∃ new c',
    UserRepository.update 5 1 (UserUpdate.mk None None (Some (Some "New bio only")))
                          sample_ctx = (Ok (Some new), c')
    ∧ User.id new = 1%Z ∧ User.name new = Some "John Doe"
    ∧ User.email new = Some "john@example.com"
    ∧ User.bio new = Some "New bio only".
Proof.
  eexists _, _. split; [vm_compute; reflexivity|].
  destruct (update_changes_only_set_fields 5 1
              (UserUpdate.mk None None (Some (Some "New bio only")))
              sample_ctx _ _ ltac:(vm_compute; reflexivity))
    as (old & _ & _ & _ & _ & _ & _ & _ & _ & _ & _ & _).
  vm_compute. done.
Defined.

(** Tracing on, metrics and logging off: the meter provider stays the
    proxy. *)
Lemma disabled_signal_untouched_witness :
  ∃ w', telemetry.setup_telemetry
          (Settings.mk "localhost" 3306 "root" "password" "otel_example"
             "0.0.0.0" 8080 "development" "info" "otel-example-python" "1.0.0"
             "development" "localhost:4320" true false false)
          (initial_world Settings.default no_fault) = (Ok tt, w')
        ∧ providers w' Metrics = mkProvider 1 false.
Proof.
  destruct (disabled_signal_untouched
              (Settings.mk "localhost" 3306 "root" "password" "otel_example"
                 "0.0.0.0" 8080 "development" "info" "otel-example-python" "1.0.0"
                 "development" "localhost:4320" true false false)
              (initial_world Settings.default no_fault) Metrics)
    as (w' & evs & Hrun & _ & Hprov & _).
  - reflexivity.
  - exists w'. split; [exact Hrun|exact Hprov].
Defined.

(** Three calls of [setup_logging] in a fresh process. *)
Lemma setup_logging_idempotent_witness :
  ∃ w' h,
    repeat_call 3 setup_logging (initial_world Settings.default no_fault) = (Ok tt, w')
    ∧ root_handlers (logging w') = [h] ∧ h_level h = INFO.
Proof.
  destruct (setup_logging_idempotent 2 (initial_world Settings.default no_fault) INFO)
    as (w' & h & Hrun & Hh & _ & Hl & _).
  - reflexivity.
  - exists w', h. split; [exact Hrun|]. split; [exact Hh|exact Hl].
Defined.

(* ================================================================== *)
(** * Further properties: what the handlers write *)
(* ================================================================== *)

Lemma read_only_keeps_wf {A} (m : M Ctx A) : read_only m → keeps_wf m.
Proof. intros Hro c r c' Hwf Hm. by rewrite (Hro _ _ _ Hm). Qed.

Lemma read_only_ret {A} (a : A) : read_only (ret a).
Proof. intros c r c' Heq. run. by simplify_eq. Qed.

Lemma read_only_raise {A} e : read_only (raise e : M Ctx A).
Proof. intros c r c' Heq. run. by simplify_eq. Qed.

Lemma read_only_lift_res {A} (x : Res A) : read_only (lift_res x).
Proof. intros c r c' Heq. run. by simplify_eq. Qed.

Lemma read_only_logger_call name lvl msg : read_only (logger_call name lvl msg).
Proof. intros c r c' Heq. run. by simplify_eq. Qed.

Lemma read_only_bind {A B} (m : M Ctx A) (k : A → M Ctx B) :
  read_only m → (∀ a, read_only (k a)) → read_only (bind m k).
Proof.
  intros Hm Hk c r c' Heq. unfold bind in Heq.
  destruct (m c) as [[a|e] c1] eqn:Hmc.
  - rewrite (Hk _ _ _ _ Heq). by eapply Hm.
  - simplify_eq. by eapply Hm.
Qed.

Lemma keeps_wf_bind {A B} (m : M Ctx A) (k : A → M Ctx B) :
  keeps_wf m → (∀ a, keeps_wf (k a)) → keeps_wf (bind m k).
Proof.
  intros Hm Hk c r c' Hwf Heq. unfold bind in Heq.
  destruct (m c) as [[a|e] c1] eqn:Hmc.
  - eapply Hk; [|done]. by eapply Hm.
  - simplify_eq. by eapply Hm.
Qed.

Lemma read_only_execute_select (P : User.t → Prop) `{∀ u, Decision (P u)} :
  read_only (session.execute_select P).
Proof. intros c r c' Heq. unfold session.execute_select in Heq. by simplify_eq. Qed.

Lemma read_only_scalar_one_or_none {A} (l : list A) :
  read_only (session.scalar_one_or_none l).
Proof.
  intros c r c' Heq. destruct l as [|x [|y l]]; run; by simplify_eq.
Qed.

Lemma read_only_get_by_id user_id : read_only (UserRepository.get_by_id user_id).
Proof.
  unfold UserRepository.get_by_id.
  apply read_only_bind; [apply read_only_execute_select|]. intros result.
  apply read_only_bind; [apply read_only_scalar_one_or_none|]. intros user.
  apply read_only_bind; [|intros; apply read_only_ret].
  destruct user; apply read_only_logger_call.
Qed.

Lemma read_only_get_by_email email : read_only (UserRepository.get_by_email email).
Proof.
  unfold UserRepository.get_by_email.
  apply read_only_bind; [apply read_only_execute_select|]. intros result.
  apply read_only_scalar_one_or_none.
Qed.

Lemma read_only_get_all : read_only UserRepository.get_all.
Proof.
  unfold UserRepository.get_all.
  apply read_only_bind; [apply read_only_execute_select|]. intros result.
  apply read_only_bind; [apply read_only_logger_call|]. intros; apply read_only_ret.
Qed.

Lemma read_only_email_check user_id user_data :
  read_only (user_routes.email_check user_id user_data).
Proof.
  unfold user_routes.email_check.
  destruct (UserUpdate.email_truthy user_data); [|apply read_only_ret].
  apply read_only_bind; [apply read_only_get_by_email|]. intros [u|]; [|apply read_only_ret].
  case_decide; [apply read_only_raise|apply read_only_ret].
Qed.

(** UPDATE keeps the constraints. *)
Lemma replace_row_ids k user (l : list User.t) :
  User.id user = k →
  User.id <$> ((λ r, if decide (User.id r = k) then user else r) <$> l)
  = User.id <$> l.
Proof.
  intros Hk. induction l as [|r l IH]; [done|]. rewrite !fmap_cons, IH. f_equal.
  case_decide; congruence.
Qed.

Lemma replace_row_absent k user (l : list User.t) :
  k ∉ User.id <$> l →
  (λ r, if decide (User.id r = k) then user else r) <$> l = l.
Proof.
  intros Hno. rewrite <- (list_fmap_id l) at 2.
  apply Forall_fmap_ext, Forall_forall. intros r Hr. simpl.
  case_decide as Heq; [|done]. exfalso. apply Hno. rewrite <- Heq.
  by apply list_elem_of_fmap_2.
Qed.

Lemma replace_row_emails k user (l : list User.t) :
  NoDup (User.id <$> l) → NoDup (User.email <$> l) →
  Forall (λ r, User.id r ≠ k → User.email r ≠ User.email user) l →
  NoDup (User.email
           <$> ((λ r, if decide (User.id r = k) then user else r) <$> l)).
Proof.
  induction l as [|r l IH]; intros Hid Hem Hall; [constructor|].
  rewrite !fmap_cons in *. apply NoDup_cons in Hid as [Hr Hid].
  apply NoDup_cons in Hem as [Hre Hem]. apply Forall_cons in Hall as [Hrall Hall].
  destruct (decide (User.id r = k)) as [Heq|Hne].
  - rewrite Heq in Hr. rewrite (replace_row_absent k user l Hr).
    apply NoDup_cons. split; [|done].
    intros Hin. apply list_elem_of_fmap in Hin as (r' & He & Hr').
    rewrite Forall_forall in Hall. apply (Hall r' Hr'); [|done].
    intros Heq'. apply Hr. rewrite <- Heq'. by apply list_elem_of_fmap_2.
  - apply NoDup_cons. split; [|by apply IH].
    intros Hin. apply list_elem_of_fmap in Hin as (r' & He & Hr').
    apply list_elem_of_fmap in Hr' as (r'' & -> & Hr'').
    case_decide.
    + by apply Hrall.
    + apply Hre. rewrite He. by apply list_elem_of_fmap_2.
Qed.

Lemma keeps_wf_commit_update now old new :
  keeps_wf (session.commit_update now old new).
Proof.
  intros c r c' Hwf. unfold session.commit_update.
  destruct (decide (new = old)); [intros; by simplify_eq|].
  destruct (decide _) as [|_]; [intros; by simplify_eq|].
  destruct (decide _) as [[Hnn Hall]|_]; intros Heq; simplify_eq; [|done].
  destruct Hwf as (Hid & Hlt & Hem & Hnull). unfold db_wf. simpl in *.
  split_and!.
  - by rewrite replace_row_ids.
  - rewrite Forall_fmap. eapply Forall_impl; [exact Hlt|].
    intros r Hr. simpl. case_decide as Heq; [|done]. simpl. by rewrite <- Heq.
  - by apply replace_row_emails.
  - rewrite Forall_fmap. eapply Forall_impl; [exact Hnull|].
    intros r Hr. simpl. by case_decide.
Qed.

Lemma keeps_wf_update now user_id user_data :
  keeps_wf (UserRepository.update now user_id user_data).
Proof.
  unfold UserRepository.update.
  apply keeps_wf_bind; [apply read_only_keeps_wf, read_only_get_by_id|].
  intros [user|].
  - apply keeps_wf_bind; [apply keeps_wf_commit_update|]. intros user'.
    apply read_only_keeps_wf, read_only_bind; [apply read_only_logger_call|].
    intros; apply read_only_ret.
  - apply read_only_keeps_wf, read_only_bind; [apply read_only_logger_call|].
    intros; apply read_only_ret.
Qed.

Lemma read_only_get_user user_id : read_only (user_routes.get_user user_id).
Proof.
  unfold user_routes.get_user.
  apply read_only_bind; [apply read_only_get_by_id|].
  intros [u|]; [apply read_only_lift_res|apply read_only_raise].
Qed.

Lemma read_only_validate_all (total : Z) us acc :
  read_only
    ((fix validate_all (us : list User.t) (acc : list UserResponse.t)
        : M Ctx (list UserResponse.t * Z) :=
        match us with
        | [] => ret (acc, total)
        | u :: us' =>
            r <- lift_res (UserResponse.model_validate u) ;;
            validate_all us' (acc ++ [r])
        end) us acc).
Proof.
  revert acc. induction us as [|u us IH]; intros acc; [apply read_only_ret|].
  apply read_only_bind; [apply read_only_lift_res|]. intros r. apply IH.
Qed.

Lemma read_only_get_users : read_only user_routes.get_users.
Proof.
  unfold user_routes.get_users.
  apply read_only_bind; [apply read_only_get_all|]. intros users.
  apply read_only_validate_all.
Qed.

Lemma keeps_wf_update_user now user_id user_data :
  keeps_wf (user_routes.update_user now user_id user_data).
Proof.
  unfold user_routes.update_user.
  apply keeps_wf_bind; [apply read_only_keeps_wf, read_only_email_check|]. intros _.
  apply keeps_wf_bind; [apply keeps_wf_update|].
  intros [u|]; apply read_only_keeps_wf;
    [apply read_only_lift_res|apply read_only_raise].
Qed.

(** The HTTP layer writes nothing of its own: after [serve], the database
    is the one the handler left. *)
Lemma serve_database {A} success (render : A → Body) (handler : M Ctx A) c :
  database (serve success render handler c).2 = database (handler c).2.
Proof.
  unfold serve, get_db, try_except.
  destruct (handler c) as [[a|e] c1]; [done|]. run. by destruct e.
Qed.

Lemma serve_keeps_wf {A} success (render : A → Body) (handler : M Ctx A) c :
  keeps_wf handler → db_wf (database c) →
  db_wf (database (serve success render handler c).2).
Proof.
  intros Hk Hwf. rewrite serve_database.
  destruct (handler c) as [r c1] eqn:Hh. by eapply Hk.
Qed.

Lemma serve_read_only {A} success (render : A → Body) (handler : M Ctx A) c :
  read_only handler → database (serve success render handler c).2 = database c.
Proof.
  intros Hro. rewrite serve_database.
  destruct (handler c) as [r c1] eqn:Hh. by eapply Hro.
Qed.

(* ================================================================== *)
(** * Further properties: requests that fail, and round trips *)
(* ================================================================== *)

Lemma serve_ok {A} success (render : A → Body) (handler : M Ctx A) c a c1 :
  handler c = (Ok a, c1) →
  serve success render handler c = (mkResponse success (render a), c1).
Proof. unfold serve, get_db, try_except. by intros ->. Qed.

Lemma serve_http {A} success (render : A → Body) (handler : M Ctx A) c st d c1 :
  handler c = (Raise (HTTPException st d), c1) →
  serve success render handler c
  = (mkResponse st (BDetail d),
     with_record c1 (mkLog "app.database" ERROR
                       ("Database session error: "
                          +:+ exn_str (HTTPException st d)))).
Proof. unfold serve, get_db, try_except. by intros ->. Qed.

(** A [create_user] that raises has written nothing. *)
Lemma create_user_raise now user_data c e c' :
  user_routes.create_user now user_data c = (Raise e, c') →
  database c' = database c.
Proof.
  unfold user_routes.create_user, bind.
  destruct (UserRepository.get_by_email _ c) as [[[u|]|e1] c1] eqn:Hget;
    pose proof (read_only_get_by_email _ _ _ _ Hget) as Hdb.
  - run. intros. by simplify_eq.
  - unfold UserRepository.create, session.commit_insert. run.
    destruct (decide _) as [|_]; [intros; by simplify_eq|].
    destruct (decide _) as [[Hnn Hall]|_]; run; intros; by simplify_eq.
  - intros. by simplify_eq.
Qed.

(** What a returning [update] has done: nothing, or it has stored a row
    that satisfies the not-null constraints. *)
Lemma update_ok_cases now user_id user_data c u c' :
  UserRepository.update now user_id user_data c = (Ok (Some u), c') →
  database c' = database c ∨ session.not_null u.
Proof.
  unfold UserRepository.update, bind.
  destruct (UserRepository.get_by_id user_id c) as [[[old|]|e1] c1] eqn:Hget;
    pose proof (read_only_get_by_id _ _ _ _ Hget) as Hdb; [|by run|done].
  destruct (session.commit_update _ _ _ _) as [[user|ex] c2] eqn:Hcommit; [|done].
  run. intros Heq. simplify_eq.
  apply commit_update_ok in Hcommit as (_ & _ & _ & _ & _ & _ & _ & Hcase).
  destruct Hcase as [(_ & _ & ->)|[Hnn _]]; [by left|by right].
Qed.

Lemma update_raise_unchanged now user_id user_data c e c' :
  UserRepository.update now user_id user_data c = (Raise e, c') →
  database c' = database c.
Proof.
  unfold UserRepository.update, bind.
  destruct (UserRepository.get_by_id user_id c) as [[[old|]|e1] c1] eqn:Hget;
    pose proof (read_only_get_by_id _ _ _ _ Hget) as Hdb;
    [|by run|intros; by simplify_eq].
  destruct (session.commit_update _ _ _ _) as [[user|ex] c2] eqn:Hcommit; [by run|].
  intros Heq. simplify_eq. apply commit_update_raise in Hcommit as [_ ->].
  done.
Qed.

Lemma update_none_unchanged now user_id user_data c c' :
  UserRepository.update now user_id user_data c = (Ok None, c') →
  database c' = database c.
Proof.
  unfold UserRepository.update, bind.
  destruct (UserRepository.get_by_id user_id c) as [[[old|]|e1] c1] eqn:Hget;
    pose proof (read_only_get_by_id _ _ _ _ Hget) as Hdb; [| |done].
  - destruct (session.commit_update _ _ _ _) as [[user|ex] c2]; by run.
  - run. intros. by simplify_eq.
Qed.

(** An [update_user] that raises has written nothing. *)
Lemma update_user_raise now user_id user_data c e c' :
  user_routes.update_user now user_id user_data c = (Raise e, c') →
  database c' = database c.
Proof.
  unfold user_routes.update_user, bind.
  destruct (user_routes.email_check _ _ c) as [[[]|e1] c1] eqn:Hchk;
    pose proof (read_only_email_check _ _ _ _ _ Hchk) as Hdb;
    [|intros; by simplify_eq].
  destruct (UserRepository.update _ _ _ c1) as [[[u|]|e2] c2] eqn:Hupd.
  - destruct (update_ok_cases _ _ _ _ _ _ Hupd) as [Hsame|Hnn].
    + unfold lift_res. intros Heq. simplify_eq. congruence.
    + destruct (model_validate_ok u Hnn) as [r Hr]. unfold lift_res.
      rewrite Hr. done.
  - run. intros Heq. simplify_eq.
    rewrite (update_none_unchanged _ _ _ _ _ Hupd). done.
  - intros Heq. simplify_eq.
    rewrite (update_raise_unchanged _ _ _ _ _ _ Hupd). done.
Qed.

(** A [delete_user] that raises has written nothing. *)
Lemma delete_user_raise user_id c e c' :
  user_routes.delete_user user_id c = (Raise e, c') →
  database c' = database c.
Proof.
  unfold user_routes.delete_user, UserRepository.delete, bind.
  destruct (UserRepository.get_by_id user_id c) as [[[old|]|e1] c1] eqn:Hget;
    pose proof (read_only_get_by_id _ _ _ _ Hget) as Hdb.
  - by run.
  - run. intros. by simplify_eq.
  - intros. by simplify_eq.
Qed.

(** X2. A request that is not answered with its route's success status
    has written nothing to the table, and the two read routes never write. *)
Theorem failed_requests_write_nothing now user_id user_create user_update c :
  database (GET_users c).2 = database c
  ∧ database (GET_user user_id c).2 = database c
  ∧ (status_code (POST_users now user_create c).1 ≠ HTTP_201_CREATED →
     database (POST_users now user_create c).2 = database c)
  ∧ (status_code (PUT_user now user_id user_update c).1 ≠ HTTP_200_OK →
     database (PUT_user now user_id user_update c).2 = database c)
  ∧ (status_code (DELETE_user user_id c).1 ≠ HTTP_204_NO_CONTENT →
     database (DELETE_user user_id c).2 = database c).
Proof.
  split_and!.
  - apply serve_read_only, read_only_get_users.
  - apply serve_read_only, read_only_get_user.
  - intros Hst. unfold POST_users in *. rewrite serve_database.
    destruct (user_routes.create_user now user_create c) as [[a|e] c1] eqn:Hh.
    + exfalso. apply Hst. by rewrite (serve_ok _ _ _ _ _ _ Hh).
    + by eapply create_user_raise.
  - intros Hst. unfold PUT_user in *. rewrite serve_database.
    destruct (user_routes.update_user now user_id user_update c)
      as [[a|e] c1] eqn:Hh.
    + exfalso. apply Hst. by rewrite (serve_ok _ _ _ _ _ _ Hh).
    + by eapply update_user_raise.
  - intros Hst. unfold DELETE_user in *. rewrite serve_database.
    destruct (user_routes.delete_user user_id c) as [[a|e] c1] eqn:Hh.
    + exfalso. apply Hst. by rewrite (serve_ok _ _ _ _ _ _ Hh).
    + by eapply delete_user_raise.
Qed.

(** [GET /api/users/{id}] on the id of a stored row. *)
Lemma get_user_found c u :
  NoDup (User.id <$> rows (database c)) → u ∈ rows (database c) →
  ∀ r, UserResponse.model_validate u = Ok r →
  (GET_user (User.id u) c).1 = mkResponse HTTP_200_OK (BUser r).
Proof.
  intros Hnd Hin r Hr. unfold GET_user. erewrite serve_ok; [done|].
  unfold user_routes.get_user.
  rewrite (bind_ok _ _ _ _ _ (get_by_id_some _ _ Hnd Hin)).
  unfold lift_res. by rewrite Hr.
Qed.



(** X19. POST /api/users with an e-mail that a stored user holds is
    answered 409 with the "already exists" detail and writes nothing. *)
Theorem create_with_taken_email_conflicts now user_data c :
  db_wf (database c) →
  (∃ u, u ∈ rows (database c)
        ∧ User.email u = Some (UserCreate.email user_data)) →
  ∃ c1,
    POST_users now user_data c
    = (mkResponse HTTP_409_CONFLICT
         (BDetail ("User with email " +:+ UserCreate.email user_data
                     +:+ " already exists")), c1)
    ∧ database c1 = database c.
Proof.
  intros Hwf (u & Hin & He). eexists. split.
  - unfold POST_users, serve, get_db, try_except, user_routes.create_user.
    rewrite (bind_ok _ _ _ _ _ (get_by_email_some _ _ _ Hwf Hin He)).
    reflexivity.
  - reflexivity.
Qed.

(** [DELETE /api/users/{id}] on the id of a stored row, in full. *)
Lemma delete_found c u :
  NoDup (User.id <$> rows (database c)) → u ∈ rows (database c) →
  DELETE_user (User.id u) c
  = (mkResponse HTTP_204_NO_CONTENT BEmpty,
     mkCtx (mkDatabase (filter (λ r, User.id r ≠ User.id u) (rows (database c)))
                       (autoincrement (database c)))
           (records c
              ++ [mkLog UserRepository.logger DEBUG
                    ("Found user with id=" +:+ pretty (User.id u))]
              ++ [mkLog UserRepository.logger INFO
                    ("Deleted user with id=" +:+ pretty (User.id u))])).
Proof.
  intros Hnd Hin. unfold DELETE_user. erewrite serve_ok; [done|].
  unfold user_routes.delete_user, UserRepository.delete.
  rewrite (bind_ok _ _ _ _ _ (bind_ok _ _ _ _ _ (get_by_id_some _ _ Hnd Hin))).
  unfold session.commit_delete. run. by rewrite <- app_assoc.
Qed.

(** X4. DELETE /api/users/{id} of a stored user is answered 204 and
    removes that row and no other; afterwards GET and DELETE on the id are
    answered 404. *)
Theorem deleted_user_is_gone c u :
  db_wf (database c) → u ∈ rows (database c) →
  ∃ c1,
    DELETE_user (User.id u) c = (mkResponse HTTP_204_NO_CONTENT BEmpty, c1)
    ∧ (u ∉ rows (database c1))
    ∧ (∀ r, r ∈ rows (database c1) ↔ r ∈ rows (database c) ∧ r ≠ u)
    ∧ (GET_user (User.id u) c1).1 = not_found (User.id u)
    ∧ (DELETE_user (User.id u) c1).1 = not_found (User.id u).
Proof.
  intros Hwf Hin. pose proof Hwf as (Hnd & _).
  eexists. split; [by apply delete_found|]. simpl.
  assert (∀ r, r ∈ filter (λ r, User.id r ≠ User.id u) (rows (database c))
               ↔ r ∈ rows (database c) ∧ r ≠ u) as Hrows.
  { intros r. rewrite list_elem_of_filter. split.
    - intros [Hne Hr]. split; [done|]. by intros ->.
    - intros [Hr Hne]. split; [|done]. intros Heq. apply Hne.
      by apply (unique_key_inj User.id (rows (database c))). }
  assert (∀ r, r ∈ filter (λ r, User.id r ≠ User.id u) (rows (database c))
               → User.id r ≠ User.id u) as Hgone.
  { intros r Hr. by apply list_elem_of_filter in Hr as [? _]. }
  split_and!.
  - intros Hu. apply Hrows in Hu as [_ ?]. done.
  - done.
  - unfold GET_user, serve, get_db, try_except, user_routes.get_user.
    by erewrite bind_ok by (by apply get_by_id_none).
  - unfold DELETE_user, serve, get_db, try_except, user_routes.delete_user,
      UserRepository.delete.
    erewrite bind_ok;
      [|erewrite bind_ok by (by apply get_by_id_none); reflexivity].
    done.
Qed.

(** What [serve] answered with a user body, the handler returned. *)
Lemma serve_user_inv success (handler : M Ctx UserResponse.t) c r c1 :
  serve success BUser handler c = (mkResponse success (BUser r), c1) →
  handler c = (Ok r, c1).
Proof.
  unfold serve, get_db, try_except.
  destruct (handler c) as [[a|e] c2]; run; [intros; by simplify_eq|].
  destruct e; intros; simplify_eq.
Qed.

(** A returning [update] has the row it returns in the table, under the
    requested id, and has touched no row with another id. *)
Lemma update_ok_stored now user_id user_data c u c' :
  UserRepository.update now user_id user_data c = (Ok (Some u), c') →
  u ∈ rows (database c') ∧ User.id u = user_id
  ∧ (∀ r, r ∈ rows (database c) → User.id r ≠ user_id → r ∈ rows (database c')).
Proof.
  unfold UserRepository.update, bind.
  destruct (UserRepository.get_by_id user_id c) as [[[old|]|ex] c1] eqn:Hget;
    [|by run|done].
  apply get_by_id_inv in Hget as [Hsel Hdb].
  assert (old ∈ rows (database c) ∧ User.id old = user_id) as [Hin Hid].
  { assert (old ∈ filter (λ r, User.id r = user_id) (rows (database c))) as H
      by (rewrite Hsel; left).
    by apply list_elem_of_filter in H as [? ?]. }
  fold (updated_row old user_data).
  destruct (session.commit_update _ _ _ _) as [[user|ex] c2] eqn:Hcommit; [|done].
  run. intros Heq. simplify_eq.
  apply commit_update_ok in Hcommit as (Hi & _ & _ & _ & _ & _ & _ & Hrows).
  rewrite updated_row_fields in Hi. simpl in Hi.
  destruct Hrows as [(_ & -> & ->)|[_ Hrows]].
  - simpl. rewrite Hdb. split_and!; [done..|]. by intros.
  - simpl. rewrite Hrows, Hdb, updated_row_fields. simpl. split_and!.
    + apply list_elem_of_fmap. exists old. split; [|done].
      by rewrite decide_True.
    + done.
    + intros r Hr Hne. apply list_elem_of_fmap. exists r. split; [|done].
      by rewrite decide_False.
Qed.

(** X5. After a PUT /api/users/{id} answered 200, GET on the same id
    is answered 200 with the same body, and every user with another id is
    still stored as it was. *)
Theorem updated_user_is_stored now user_id user_data c r c1 :
  db_wf (database c) →
  PUT_user now user_id user_data c = (mkResponse HTTP_200_OK (BUser r), c1) →
  UserResponse.id r = user_id
  ∧ (GET_user user_id c1).1 = mkResponse HTTP_200_OK (BUser r)
  ∧ (∀ u, u ∈ rows (database c) → User.id u ≠ user_id → u ∈ rows (database c1)).
Proof.
  intros Hwf Hput.
  assert (db_wf (database c1)) as Hwf1.
  { change c1 with (mkResponse HTTP_200_OK (BUser r), c1).2. rewrite <- Hput.
    by apply serve_keeps_wf; [apply keeps_wf_update_user|]. }
  apply serve_user_inv in Hput. unfold user_routes.update_user, bind in Hput.
  destruct (user_routes.email_check _ _ c) as [[[]|e1] c2] eqn:Hchk; [|done].
  pose proof (read_only_email_check _ _ _ _ _ Hchk) as Hdb.
  destruct (UserRepository.update _ _ _ c2) as [[[u|]|e2] c3] eqn:Hupd;
    [|by run|done].
  unfold lift_res in Hput.
  destruct (UserResponse.model_validate u) as [r'|] eqn:Hval; simplify_eq.
  apply update_ok_stored in Hupd as (Hin & Hid & Hothers).
  destruct Hwf1 as (Hnd1 & _). split_and!.
  - unfold UserResponse.model_validate in Hval.
    destruct (User.name u), (User.email u); by simplify_eq.
  - subst user_id. by apply get_user_found.
  - intros u' Hu' Hne. apply Hothers; [by rewrite Hdb|done].
Qed.

(** X6. PUT /api/users/{id} with an e-mail that a user with another id
    holds is answered 409 with the "already exists" detail, whether or not
    the id exists, and writes nothing. *)
Theorem update_to_taken_email_conflicts now user_id user_data c :
  db_wf (database c) →
  held_by_other user_id user_data (database c) →
  ∃ email c1,
    UserUpdate.email_truthy user_data = Some email
    ∧ PUT_user now user_id user_data c
      = (mkResponse HTTP_409_CONFLICT
           (BDetail ("User with email " +:+ email +:+ " already exists")), c1)
    ∧ database c1 = database c.
Proof.
  intros Hwf Hheld.
  destruct (email_check_cases user_id user_data c Hwf)
    as [(_ & email & Htruthy & Hchk)|[Hfree _]]; [|done].
  exists email. eexists. split; [done|]. split.
  - unfold PUT_user. erewrite serve_http; [done|].
    unfold user_routes.update_user. by rewrite (bind_raise _ _ _ _ _ Hchk).
  - done.
Qed.

(** X7. PUT /api/users/{id} with a payload that sets no field, on a
    stored user, is answered 200 with the user as stored and writes
    nothing: no UPDATE is issued and [updated_at] is not stamped. *)
Theorem empty_update_changes_nothing now c u :
  db_wf (database c) → u ∈ rows (database c) →
  ∃ r c1,
    PUT_user now (User.id u) (UserUpdate.mk None None None) c
    = (mkResponse HTTP_200_OK (BUser r), c1)
    ∧ UserResponse.model_validate u = Ok r
    ∧ database c1 = database c.
Proof.
  intros Hwf Hin. pose proof Hwf as (Hnd & _ & _ & Hnn).
  rewrite Forall_forall in Hnn.
  destruct (model_validate_ok u (Hnn u Hin)) as [r Hr].
  assert (∃ c1, UserRepository.update now (User.id u) (UserUpdate.mk None None None) c
                = (Ok (Some u), c1) ∧ database c1 = database c)
    as (c1 & Hupd & Hdb).
  { eexists. split.
    - rewrite (update_found now u _ _ Hnd Hin). unfold session.commit_update.
      change (updated_row u (UserUpdate.mk None None None)) with u.
      rewrite decide_True by done. reflexivity.
    - done. }
  exists r, c1. split_and!; [|done..].
  unfold PUT_user. apply serve_ok.
  unfold user_routes.update_user, user_routes.email_check. simpl.
  unfold bind at 1. unfold ret at 1.
  rewrite (bind_ok _ _ _ _ _ Hupd). unfold lift_res. by rewrite Hr.
Qed.

(** [select(User)] without a condition returns every row. *)
Lemma select_all_rows (l : list User.t) : filter (λ _, True) l = l.
Proof.
  induction l as [|u l IH]; [done|]. rewrite filter_cons. simpl. by rewrite IH.
Qed.

(** The validation loop of [get_users] on rows without nulls: one response
    per row, in order. *)
Lemma validate_all_ok (total : Z) us acc c :
  Forall session.not_null us →
  ∃ rs,
    (fix validate_all (us : list User.t) (acc : list UserResponse.t)
       : M Ctx (list UserResponse.t * Z) :=
       match us with
       | [] => ret (acc, total)
       | u :: us' =>
           r <- lift_res (UserResponse.model_validate u) ;;
           validate_all us' (acc ++ [r])
       end) us acc c
    = (Ok (acc ++ rs, total), c)
    ∧ Forall2 (λ u r, UserResponse.model_validate u = Ok r) us rs.
Proof.
  revert acc. induction us as [|u us IH]; intros acc Hall.
  - exists []. split; [by rewrite app_nil_r|constructor].
  - apply Forall_cons in Hall as [Hu Hall].
    destruct (model_validate_ok u Hu) as [r Hr].
    destruct (IH (acc ++ [r]) Hall) as (rs & Hrun & Hrs).
    exists (r :: rs). split; [|by constructor].
    unfold bind at 1, lift_res at 1. rewrite Hr. rewrite Hrun.
    by rewrite <- app_assoc.
Qed.

(** X8. GET /api/users is answered 200 with one entry per stored user,
    in table order, and with [total] equal to the number of entries; on an
    empty table the list is empty and [total] is 0; nothing is written. *)
Theorem users_list_is_the_table c :
  db_wf (database c) →
  ∃ rs c1,
    GET_users c
    = (mkResponse HTTP_200_OK (BUserList rs (Z.of_nat (length rs))), c1)
    ∧ Forall2 (λ u r, UserResponse.model_validate u = Ok r) (rows (database c)) rs
    ∧ length rs = length (rows (database c))
    ∧ (rows (database c) = [] → rs = [])
    ∧ database c1 = database c.
Proof.
  intros (_ & _ & _ & Hnn).
  destruct (validate_all_ok (Z.of_nat (length (rows (database c))))
              (rows (database c)) []
              (with_record c (mkLog UserRepository.logger DEBUG
                 ("Retrieved " +:+ pretty (length (rows (database c))) +:+ " users")))
              Hnn) as (rs & Hrun & Hrs).
  pose proof (Forall2_length _ _ _ Hrs) as Hlen.
  assert (user_routes.get_users c
          = (Ok (rs, Z.of_nat (length (rows (database c)))),
             with_record c (mkLog UserRepository.logger DEBUG
               ("Retrieved " +:+ pretty (length (rows (database c))) +:+ " users"))))
    as Hget.
  { unfold user_routes.get_users, UserRepository.get_all, session.execute_select.
    unfold bind at 1. unfold bind at 1. unfold bind at 1.
    rewrite select_all_rows. unfold logger_call at 1, modify at 1.
    unfold bind at 1, ret at 1. exact Hrun. }
  exists rs. eexists. split_and!; [|done|done| |].
  - unfold GET_users. rewrite (serve_ok _ _ _ _ _ _ Hget). simpl.
    rewrite Hlen. reflexivity.
  - intros Hempty. rewrite Hempty in Hlen. by destruct rs.
  - done.
Qed.

(* ================================================================== *)
(** * Further properties: settings, logging and telemetry setup *)
(* ================================================================== *)

(** X9. [get_settings] evaluates [Settings()] at most once per process:
    a second call returns the settings of the first call without reading
    the environment again, even if the environment has changed in between. *)
Theorem get_settings_reads_environment_once w environ' :
  ∃ s w',
    (s1 <- get_settings ;; environ_changes environ' ;;;
     s2 <- get_settings ;; ret (s1, s2)) w = (Ok (s, s), w')
    ∧ s = resolved_settings w
    ∧ settings_cache w' = Some s
    ∧ ∃ evs, events w' = events w ++ evs
             ∧ length (filter (λ e, e = SettingsBuilt) evs)
               = match settings_cache w with Some _ => 0 | None => 1 end%nat.
Proof.
  destruct w as [env cache n lg provs fault evs0].
  eexists _, _. split_and!.
  - unfold environ_changes. wrun. rewrite get_settings_spec. wrun.
    rewrite get_settings_spec. reflexivity.
  - done.
  - done.
  - eexists. split; [simpl; rewrite <- !app_assoc; reflexivity|].
    by destruct cache.
Qed.

(** X10. [setup_logging] fails all or nothing.  If it raises -- its first
    [setLevel] does, on a [log_level] that [logging] does not know -- the
    root logger keeps its level and its handlers, and the startup run raises
    the same exception at the import of app.main, before the app is
    created, telemetry is set up or anything is instrumented. *)
Theorem setup_logging_failure_aborts_startup w e w1 :
  setup_logging w = (Raise e, w1) →
  logging w1 = logging w
  ∧ ∃ w2 evs,
      main.startup w = (Raise e, w2) ∧ logging w2 = logging w
      ∧ providers w2 = providers w
      ∧ events w2 = events w ++ evs
      ∧ Forall (λ ev, match ev with
                      | New _ (FastAPI _) | InstrumentApp _ | InstrumentEngine _ _
                      | Enter Csetup_telemetry => False
                      | _ => True
                      end) evs.
Proof.
  destruct w as [env cache n lg provs fault evs0].
  destruct (logging_.assoc
              (logging_.upper (Settings.log_level (default env cache)))
              logging_._nameToLevel) as [lvl|] eqn:Hlvl.
  { rewrite (setup_logging_spec _ _ _ _ _ _ _ lvl Hlvl). discriminate. }
  assert (setup_logging (mkWorld env cache n lg provs fault evs0)
          = (Raise (ValueError
                      ("Unknown level: "
                         +:+ repr (logging_.upper
                                     (Settings.log_level (default env cache))))),
             mkWorld env (Some (default env cache)) n lg provs fault
                     (evs0 ++ [Enter Csetup_logging] ++ get_settings_trace cache)))
    as Hraise.
  { unfold setup_logging, call. wrun. rewrite get_settings_spec.
    unfold logging_.root_setLevel, logging_._checkLevel. rewrite Hlvl.
    wrun. by rewrite <- app_assoc. }
  rewrite Hraise. intros Heq. injection Heq as <- <-. split; [done|].
  eexists _, _. split_and!.
  - unfold main.startup, main.import_main, import_database.
    wrun. rewrite get_settings_spec. wrun.
    unfold setup_logging, call. wrun. rewrite get_settings_spec.
    unfold logging_.root_setLevel, logging_._checkLevel.
    change (default env (Some (default env cache))) with (default env cache).
    rewrite Hlvl. wrun. reflexivity.
  - done.
  - done.
  - simpl. rewrite <- !app_assoc. reflexivity.
  - destruct cache; simpl; repeat constructor.
Qed.

Lemma setup_logging_failure_aborts_startup_witness :
  ∃ w2, main.startup
          (initial_world
             (Settings.mk "localhost" 3306 "root" "password" "otel_example"
                "0.0.0.0" 8080 "development" "verbose" "otel-example-python"
                "1.0.0" "development" "localhost:4320" true true true) no_fault)
        = (Raise (ValueError "Unknown level: 'VERBOSE'"), w2)
        ∧ root_handlers (logging w2) = [].
Proof.
  set (w := initial_world
              (Settings.mk "localhost" 3306 "root" "password" "otel_example"
                 "0.0.0.0" 8080 "development" "verbose" "otel-example-python"
                 "1.0.0" "development" "localhost:4320" true true true) no_fault).
  assert (setup_logging w
          = (Raise (ValueError "Unknown level: 'VERBOSE'"), (setup_logging w).2))
    as Hraise by (vm_compute; reflexivity).
  destruct (setup_logging_failure_aborts_startup w _ _ Hraise)
    as (_ & w2 & evs & H1 & H2 & _).
  exists w2. split; [exact H1|]. rewrite H2. reflexivity.
Defined.

(** X11. [setup_logging] called after [setup_telemetry] takes the OTLP
    bridge handler off the root logger again, although the logger provider
    stays registered: only the console handler is left. *)
Theorem setup_logging_after_telemetry_drops_bridge settings w lvl :
  names_level (Settings.log_level (resolved_settings w)) lvl →
  ∃ w' h,
    (telemetry.setup_telemetry settings ;;; setup_logging) w = (Ok tt, w')
    ∧ root_handlers (logging w') = [h] ∧ is_console h
    ∧ ¬ Exists is_otlp_bridge (root_handlers (logging w'))
    ∧ providers w' = providers (telemetry.setup_telemetry settings w).2.
Proof.
  destruct w as [env cache n lg provs fault evs0]. unfold resolved_settings.
  cbn [settings_cache environ]. intros Hlvl.
  destruct settings as [? ? ? ? ? ? ? ? ? ? ? ? ? tracing metrics logs].
  unfold telemetry.setup_telemetry, telemetry.setup_tracing,
    telemetry.setup_metrics, telemetry.setup_log_export, logging_.addHandler.
  destruct tracing, metrics, logs; wrun;
    rewrite (setup_logging_spec _ _ _ _ _ _ _ lvl Hlvl);
    (eexists _, _; split; [reflexivity|]; simpl;
     split; [reflexivity|]; split; [reflexivity|]; split; [|reflexivity];
     intros Hex; apply Exists_cons in Hex as [Hex|Hex];
     [exact Hex|by apply Exists_nil in Hex]).
Qed.

Lemma has_handler_fresh_app k id hs h :
  Forall (λ h, (h_id h < k)%nat) hs → (h_id h < id)%nat → (k ≤ id)%nat →
  logging_.has_handler id (hs ++ [h]) = false.
Proof.
  intros Hall Hh Hle. unfold logging_.has_handler. apply bool_decide_false.
  intros Hex. apply Exists_exists in Hex as (h' & Hin & Heq).
  apply elem_of_app in Hin as [Hin|Hin].
  - rewrite Forall_forall in Hall. specialize (Hall h' Hin). lia.
  - apply list_elem_of_singleton in Hin. subst h'. lia.
Qed.

(** X12. [setup_telemetry] is not idempotent on the root logger: called
    twice with logging enabled it leaves two OTLP bridge handlers attached,
    the first bound to the first call's logger provider and the second to
    the second call's. *)
Theorem setup_telemetry_twice_attaches_two_bridges settings w :
  Settings.otel_enable_logging settings = true →
  Forall (λ h, (h_id h < next_obj w)%nat) (root_handlers (logging w)) →
  ∃ w' h1 h2 p1 p2,
    (telemetry.setup_telemetry settings ;;; telemetry.setup_telemetry settings) w
    = (Ok tt, w')
    ∧ root_handlers (logging w') = root_handlers (logging w) ++ [h1; h2]
    ∧ h_obj h1 = LoggingHandler NOTSET p1
    ∧ h_obj h2 = LoggingHandler NOTSET p2
    ∧ p1 ≠ p2 ∧ h_id h1 ≠ h_id h2.
Proof.
  destruct w as [env cache n lg provs fault evs0]. destruct lg as [rl hs lv].
  destruct settings as [? ? ? ? ? ? ? ? ? ? ? ? ? tracing metrics logs].
  simpl. intros -> Hfresh.
  unfold telemetry.setup_telemetry, telemetry.setup_tracing,
    telemetry.setup_metrics, telemetry.setup_log_export, logging_.addHandler.
  destruct tracing, metrics; wrun;
    rewrite (has_handler_fresh n _ hs) by (done || simpl; lia); wrun;
    rewrite (has_handler_fresh_app n _ hs) by (done || simpl; lia);
    (eexists _, _, _, _, _; split; [reflexivity|]; simpl;
     split; [by rewrite <- app_assoc|];
     split; [reflexivity|]; split; [reflexivity|];
     split; simpl; lia).
Qed.

(** X13. Whatever the flags, every provider that [setup_telemetry]
    constructs is built on the one resource created at the start of the
    call, which carries the settings' service name, version and
    environment; every exporter it constructs targets
    [otel_exporter_otlp_endpoint] over the insecure transport; and every
    object it constructs is new. *)
Theorem telemetry_objects_follow_settings settings w :
  ∃ w' evs,
    telemetry.setup_telemetry settings w = (Ok tt, w')
    ∧ events w' = events w ++ evs
    ∧ New (next_obj w)
          (Resource (Settings.otel_service_name settings)
                    (Settings.otel_service_version settings)
                    (Settings.otel_environment settings)) ∈ evs
    ∧ (∀ id o, New id o ∈ evs →
         (next_obj w ≤ id < next_obj w')%nat
         ∧ (∀ r, provider_resource o = Some r → r = next_obj w)
         ∧ (∀ ep ins, exporter_target o = Some (ep, ins) →
              ep = Settings.otel_exporter_otlp_endpoint settings ∧ ins = true)).
Proof.
  destruct w as [env cache n lg provs fault evs0].
  destruct settings as [? ? ? ? ? ? ? ? ? ? ? ? ? tracing metrics logs].
  unfold telemetry.setup_telemetry, telemetry.setup_tracing,
    telemetry.setup_metrics, telemetry.setup_log_export, logging_.addHandler.
  destruct tracing, metrics, logs; wrun;
    (eexists _, _; split; [reflexivity|]; wrun;
     split; [rewrite <- !app_assoc; reflexivity|]; simpl;
     split; [once mem|];
     intros id o; rewrite !elem_of_cons, elem_of_nil;
     intros Hin; repeat destruct Hin as [Hin|Hin]; try done; simplify_eq;
     (split; [lia|]); (split; [intros r Hr|intros ep ins Ht]);
     simpl in *; by simplify_eq).
Qed.

(** X14. With all three flags false [setup_telemetry] builds the resource
    and nothing else: no provider is registered and the logging tree is
    untouched. *)
Theorem all_signals_disabled_builds_only_resource settings w :
  Settings.otel_enable_tracing settings = false →
  Settings.otel_enable_metrics settings = false →
  Settings.otel_enable_logging settings = false →
  ∃ w',
    telemetry.setup_telemetry settings w = (Ok tt, w')
    ∧ events w'
      = events w
          ++ [Enter Csetup_telemetry;
              New (next_obj w)
                  (Resource (Settings.otel_service_name settings)
                            (Settings.otel_service_version settings)
                            (Settings.otel_environment settings));
              Exit Csetup_telemetry]
    ∧ providers w' = providers w ∧ logging w' = logging w
    ∧ next_obj w' = S (next_obj w).
Proof.
  destruct w as [env cache n lg provs fault evs0].
  destruct settings as [? ? ? ? ? ? ? ? ? ? ? ? ? tracing metrics logs].
  simpl. intros -> -> ->. unfold telemetry.setup_telemetry. wrun.
  eexists. split; [reflexivity|]. simpl. by rewrite <- !app_assoc.
Qed.

(** X15. What a call of [setup_telemetry] does for an enabled signal, in
    order.  Tracing: provider, exporter and batch processor are built, the
    processor is attached, then the provider is registered.  Metrics:
    exporter, periodic reader (60000 ms) and provider are built, the
    provider is registered, then the system-metrics instrumentor is built
    and started.  Logging: exporter, provider and batch processor are
    built, the processor is attached, the provider is registered, then the
    bridge handler bound to that provider is built. *)
Theorem signal_setup_sequence settings w :
  ∃ w' evs,
    telemetry.setup_telemetry settings w = (Ok tt, w')
    ∧ events w' = events w ++ evs
    ∧ (Settings.otel_enable_tracing settings = true →
       ∃ r p x b,
         signal_trace Tracing evs
         = [New p (TracerProvider r);
            New x (OTLPSpanExporter
                     (Settings.otel_exporter_otlp_endpoint settings) true);
            New b (BatchSpanProcessor x);
            AddProcessor Tracing p b; SetProvider Tracing p])
    ∧ (Settings.otel_enable_metrics settings = true →
       ∃ r p x rd i,
         signal_trace Metrics evs
         = [New x (OTLPMetricExporter
                     (Settings.otel_exporter_otlp_endpoint settings) true);
            New rd (PeriodicExportingMetricReader x 60000);
            New p (MeterProvider r [rd]);
            SetProvider Metrics p;
            New i SystemMetricsInstrumentor; InstrumentSystemMetrics i])
    ∧ (Settings.otel_enable_logging settings = true →
       ∃ r p x b h,
         signal_trace Logging evs
         = [New x (OTLPLogExporter
                     (Settings.otel_exporter_otlp_endpoint settings) true);
            New p (LoggerProvider r);
            New b (BatchLogRecordProcessor x);
            AddProcessor Logging p b; SetProvider Logging p;
            New h (LoggingHandler NOTSET p)]).
Proof.
  destruct w as [env cache n lg provs fault evs0].
  destruct settings as [? ? ? ? ? ? ? ? ? ? ? ? ? tracing metrics logs].
  unfold telemetry.setup_telemetry, telemetry.setup_tracing,
    telemetry.setup_metrics, telemetry.setup_log_export, logging_.addHandler.
  destruct tracing, metrics, logs; wrun;
    (eexists _, _; split; [reflexivity|]; wrun;
     split; [rewrite <- !app_assoc; reflexivity|]; simpl;
     split_and!; intros Hon; try discriminate Hon; unfold signal_trace; simpl;
     first [ eexists _, _, _, _; reflexivity
           | eexists _, _, _, _, _; reflexivity ]).
Qed.

(* ================================================================== *)
(** * Further properties: shutdown and the whole run *)
(* ================================================================== *)

Lemma shutdown_one_frame sig msg env cache n lg provs fault evs :
  ∃ r evs',
    telemetry.shutdown_one sig msg (mkWorld env cache n lg provs fault evs)
    = (r, mkWorld env cache n lg provs fault (evs ++ evs'))
    ∧ Forall shutdown_event evs'.
Proof.
  unfold telemetry.shutdown_one, telemetry.provider_shutdown. wrun.
  destruct (provs sig) as [p [|]]; cbn [has_shutdown prov_id].
  - destruct (fault p) as [e|]; wrun.
    + eexists _, [_]. split; [reflexivity|]. by repeat constructor.
    + eexists _, [_; _]. split; [by rewrite <- app_assoc|].
      by repeat constructor.
  - eexists _, []. split; [by rewrite app_nil_r|]. constructor.
Qed.

Lemma shutdown_telemetry_frame env cache n lg provs fault evs :
  ∃ r evs',
    telemetry.shutdown_telemetry (mkWorld env cache n lg provs fault evs)
    = (r, mkWorld env cache n lg provs fault (evs ++ evs'))
    ∧ Forall shutdown_event evs'.
Proof.
  unfold telemetry.shutdown_telemetry. wrun.
  destruct (shutdown_one_frame Tracing "OpenTelemetry tracer provider shut down"
              env cache n lg provs fault (evs ++ [Enter Cshutdown_telemetry]))
    as (r1 & e1 & H1 & F1).
  rewrite H1. destruct r1 as [[]|ex]; wrun.
  2:{ eexists _, _. split; [by rewrite <- app_assoc|].
      apply Forall_app. split; [by repeat constructor|done]. }
  destruct (shutdown_one_frame Metrics "OpenTelemetry meter provider shut down"
              env cache n lg provs fault ((evs ++ [Enter Cshutdown_telemetry]) ++ e1))
    as (r2 & e2 & H2 & F2).
  rewrite H2. destruct r2 as [[]|ex]; wrun.
  2:{ eexists _, _. split; [by rewrite <- !app_assoc|].
      rewrite !Forall_app. split_and!; [by repeat constructor|done..]. }
  destruct (shutdown_one_frame Logging "OpenTelemetry logger provider shut down"
              env cache n lg provs fault
              (((evs ++ [Enter Cshutdown_telemetry]) ++ e1) ++ e2))
    as (r3 & e3 & H3 & F3).
  rewrite H3. destruct r3 as [[]|ex]; wrun.
  2:{ eexists _, _. split; [by rewrite <- !app_assoc|].
      rewrite !Forall_app. split_and!; [by repeat constructor|done..]. }
  eexists _, _. split; [by rewrite <- !app_assoc|].
  rewrite !Forall_app. split_and!; [by repeat constructor|done..|by repeat constructor].
Qed.

(** X16. On shutdown the lifespan disposes the engine before it touches
    any telemetry provider, and has disposed it also when the telemetry
    shutdown raises; the line "Application shutdown complete" is logged
    exactly when no exception reaches the lifespan's caller. *)
Theorem shutdown_disposes_engine_first g w :
  ∃ r w' post,
    main.lifespan_shutdown g w = (r, w')
    ∧ events w'
      = events w
          ++ [Logged (mkLog main.logger INFO "Shutting down application");
              Enter Cclose_db; EngineDispose (main.engine g);
              Logged (mkLog "app.database" INFO "Database connections closed");
              Exit Cclose_db]
          ++ post
    ∧ (Logged (mkLog main.logger INFO "Application shutdown complete") ∈ post
       ↔ r = Ok tt)
    ∧ providers w' = providers w ∧ logging w' = logging w.
Proof.
  destruct w as [env cache n lg provs fault evs].
  unfold main.lifespan_shutdown, close_db. wrun.
  edestruct (shutdown_telemetry_frame env cache n lg provs fault) as (r & e & H & F).
  rewrite H. destruct r as [[]|ex]; wrun.
  - eexists _, _, _. split; [reflexivity|]. simpl.
    split; [by rewrite <- !app_assoc|]. split; [|done].
    split; [done|]. intros _. apply elem_of_app. right. by left.
  - eexists _, _, _. split; [reflexivity|]. simpl.
    split; [by rewrite <- !app_assoc|]. split; [|done].
    split; [|done]. intros Hin. exfalso.
    rewrite Forall_forall in F. specialize (F _ Hin). simpl in F. done.
Qed.

Lemma register_same sig p reg : register sig p reg sig = p.
Proof. unfold register. by rewrite decide_True. Qed.

Lemma register_other sig sig' p reg :
  sig' ≠ sig → register sig p reg sig' = reg sig'.
Proof. intros Hne. unfold register. by rewrite decide_False. Qed.

Lemma elem_of_filter_events (P : Event → bool) e l :
  P e = true → e ∈ l ↔ e ∈ List.filter P l.
Proof.
  intros HP. rewrite !list_elem_of_In, filter_In. naive_solver.
Qed.

(** X17. In a fresh process whose provider hooks do not fail, a whole
    run -- startup, then shutdown -- returns, and the providers it shuts
    down are exactly the ones it registered: a signal's provider is shut
    down if and only if the signal is enabled, and it is the provider that
    startup registered for that signal. *)
Theorem lifecycle_shuts_down_what_it_registered env lvl :
  names_level (Settings.log_level env) lvl →
  ∃ w',
    lifecycle (initial_world env no_fault) = (Ok tt, w')
    ∧ (∀ sig, (∃ p, ProviderShutdown sig p ∈ events w') ↔ enabled sig env = true)
    ∧ (∀ sig p, ProviderShutdown sig p ∈ events w' →
                SetProvider sig p ∈ events w' ∧ providers w' sig = mkProvider p true).
Proof.
  intros Hlvl.
  unfold lifecycle, initial_world, main.startup, main.import_main, import_database,
    main.lifespan_startup, telemetry.instrument_fastapi,
    telemetry.instrument_sqlalchemy.
  wrun. rewrite get_settings_spec. wrun.
  rewrite (setup_logging_spec env (Some env) _ _ _ _ _ lvl Hlvl). wrun.
  rewrite get_settings_spec. wrun.
  unfold telemetry.setup_telemetry, telemetry.setup_tracing,
    telemetry.setup_metrics, telemetry.setup_log_export, logging_.addHandler,
    main.lifespan_shutdown, close_db, telemetry.shutdown_telemetry,
    telemetry.shutdown_one, telemetry.provider_shutdown.
  clear Hlvl.
  cbv [main.settings main.engine main.app from_option id].
  destruct env as [? ? ? ? ? ? ? ? ? ? ? ? ? tracing metrics logs].
  destruct tracing, metrics, logs;
    repeat (progress (wrun; cbn [prov_id has_shutdown no_fault];
                      rewrite ?register_same; rewrite ?register_other by done));
    rewrite ?has_handler_other by (simpl; lia);
    (eexists; split; [reflexivity|]); wrun; cbn [app];
    (split;
     [ intros sig;
       setoid_rewrite (elem_of_filter_events is_lifecycle_event); [|done];
       destruct sig; simpl;
       (split; [intros [p Hin]; rewrite ?elem_of_cons, elem_of_nil in Hin;
                naive_solver
               |intros Hon; try discriminate Hon; eexists; mem])
     | intros sig p;
       rewrite (elem_of_filter_events is_lifecycle_event
                  (ProviderShutdown sig p)) by done;
       rewrite (elem_of_filter_events is_lifecycle_event
                  (SetProvider sig p)) by done;
       simpl; rewrite ?elem_of_cons, elem_of_nil;
       intros Hin; repeat destruct Hin as [Hin|Hin]; try done; simplify_eq;
       (split; [naive_solver|]);
       rewrite ?register_same; rewrite ?register_other by done;
       rewrite ?register_same; rewrite ?register_other by done;
       rewrite ?register_same; reflexivity ]).
Qed.

Lemma upper_lower_ascii c :
  logging_.upper_ascii (logging_.lower_ascii c) = logging_.upper_ascii c.
Proof. destruct c as [[] [] [] [] [] [] [] []]; reflexivity. Qed.

Lemma lower_upper_ascii c :
  logging_.lower_ascii (logging_.upper_ascii c) = logging_.lower_ascii c.
Proof. destruct c as [[] [] [] [] [] [] [] []]; reflexivity. Qed.

(** Case folding either way loses nothing the other folding keeps. *)
Lemma upper_lower s : logging_.upper (logging_.lower s) = logging_.upper s.
Proof. induction s as [|c s IH]; [done|]. simpl. by rewrite upper_lower_ascii, IH. Qed.

Lemma lower_upper s : logging_.lower (logging_.upper s) = logging_.lower s.
Proof. induction s as [|c s IH]; [done|]. simpl. by rewrite lower_upper_ascii, IH. Qed.

(** The only name of level 10 is DEBUG. *)
Lemma level_debug_name k :
  logging_.assoc k logging_._nameToLevel = Some DEBUG → k = "DEBUG".
Proof.
  unfold logging_._nameToLevel. simpl.
  repeat (case_decide; [intros; simplify_eq; done|]). done.
Qed.

(** X18. The engine that app/database.py creates echoes its SQL exactly
    when the configured log level is DEBUG: the test
    [log_level.lower() == "debug"] there agrees with the level that
    [setup_logging] derives from [log_level.upper()]. *)
Theorem engine_echo_iff_debug w lvl :
  names_level (Settings.log_level (resolved_settings w)) lvl →
  ∃ w' echo,
    import_database w = (Ok (next_obj w), w')
    ∧ New (next_obj w)
          (AsyncEngine (Settings.database_url (resolved_settings w)) echo)
      ∈ events w'
    ∧ (echo = true ↔ lvl = DEBUG).
Proof.
  destruct w as [env cache n lg provs fault evs0]. unfold resolved_settings.
  cbn [settings_cache environ next_obj]. intros Hlvl.
  unfold import_database. wrun. rewrite get_settings_spec. wrun.
  eexists _, _. split; [reflexivity|]. split.
  - simpl. apply elem_of_app. right. by left.
  - rewrite bool_decide_eq_true. unfold names_level in Hlvl. split.
    + intros Hlow.
      assert (logging_.upper (Settings.log_level (default env cache)) = "DEBUG")
        as Hup by (by rewrite <- upper_lower, Hlow).
      rewrite Hup in Hlvl. vm_compute in Hlvl. by simplify_eq.
    + intros ->. apply level_debug_name in Hlvl.
      by rewrite <- lower_upper, Hlvl.
Qed.

Lemma engine_echo_iff_debug_witness :
  ∃ w' echo,
    import_database
      (initial_world
         (Settings.mk "localhost" 3306 "root" "password" "otel_example"
            "0.0.0.0" 8080 "development" "Debug" "otel-example-python"
            "1.0.0" "development" "localhost:4320" true true true) no_fault)
    = (Ok 3%nat, w')
    ∧ (echo = true ↔ DEBUG = DEBUG).
Proof.
  destruct (engine_echo_iff_debug
              (initial_world
                 (Settings.mk "localhost" 3306 "root" "password" "otel_example"
                    "0.0.0.0" 8080 "development" "Debug" "otel-example-python"
                    "1.0.0" "development" "localhost:4320" true true true) no_fault)
              DEBUG) as (w' & echo & H1 & _ & H3).
  - reflexivity.
  - exists w', echo. split; [exact H1|exact H3].
Defined.

(* ================================================================== *)
(** * Further properties: instances *)
(* ================================================================== *)


(** A create request with John's address. *)
Lemma create_with_taken_email_conflicts_witness :
  ∃ c1,
    POST_users 0 (UserCreate.mk "Jane Doe" "john@example.com" (Some "Engineer"))
               sample_ctx
    = (mkResponse HTTP_409_CONFLICT
         (BDetail "User with email john@example.com already exists"), c1)
    ∧ database c1 = database sample_ctx.
Proof.
  apply (create_with_taken_email_conflicts 0
           (UserCreate.mk "Jane Doe" "john@example.com" (Some "Engineer"))
           sample_ctx).
  - compute_done.
  - exists john. split; [compute_done|reflexivity].
Defined.

(** John is deleted from the sample table. *)
Lemma deleted_user_is_gone_witness :
  ∃ c1,
    DELETE_user 1 sample_ctx = (mkResponse HTTP_204_NO_CONTENT BEmpty, c1)
    ∧ (GET_user 1 c1).1 = not_found 1.
Proof.
  destruct (deleted_user_is_gone sample_ctx john)
    as (c1 & Hdel & _ & _ & Hget & _).
  - compute_done.
  - compute_done.
  - exists c1. split; [exact Hdel|exact Hget].
Defined.

(** John's bio is updated and read back. *)
Lemma updated_user_is_stored_witness :
  ∃ r c1,
    PUT_user 5 1 (UserUpdate.mk None None (Some (Some "New bio only"))) sample_ctx
    = (mkResponse HTTP_200_OK (BUser r), c1)
    ∧ (GET_user 1 c1).1 = mkResponse HTTP_200_OK (BUser r).
Proof.
  eexists _, _. split; [vm_compute; reflexivity|].
  refine (proj1 (proj2 (updated_user_is_stored 5 1
            (UserUpdate.mk None None (Some (Some "New bio only"))) sample_ctx
            _ _ _ _))).
  - compute_done.
  - vm_compute. reflexivity.
Defined.

(** John asks for the other user's address. *)
Lemma update_to_taken_email_conflicts_witness :
  status_code
    (PUT_user 0 1 (UserUpdate.mk None (Some (Some "other@example.com")) None)
              sample_ctx).1 = HTTP_409_CONFLICT.
Proof.
  destruct (update_to_taken_email_conflicts 0 1
              (UserUpdate.mk None (Some (Some "other@example.com")) None)
              sample_ctx) as (email & c1 & _ & Hput & _).
  - compute_done.
  - exists "other@example.com", other_user.
    split; [reflexivity|]. split; [compute_done|]. split; [reflexivity|done].
  - rewrite Hput. reflexivity.
Defined.

(** An empty payload for John. *)
Lemma empty_update_changes_nothing_witness :
  ∃ r c1,
    PUT_user 5 1 (UserUpdate.mk None None None) sample_ctx
    = (mkResponse HTTP_200_OK (BUser r), c1)
    ∧ database c1 = database sample_ctx.
Proof.
  destruct (empty_update_changes_nothing 5 sample_ctx john)
    as (r & c1 & Hput & _ & Hdb).
  - compute_done.
  - compute_done.
  - exists r, c1. split; [exact Hput|exact Hdb].
Defined.

(** The list of the sample table has two entries. *)
Lemma users_list_is_the_table_witness :
  ∃ rs c1,
    GET_users sample_ctx
    = (mkResponse HTTP_200_OK (BUserList rs (Z.of_nat (length rs))), c1)
    ∧ length rs = 2%nat.
Proof.
  destruct (users_list_is_the_table sample_ctx)
    as (rs & c1 & Hget & _ & Hlen & _).
  - compute_done.
  - exists rs, c1. split; [exact Hget|exact Hlen].
Defined.

(** Telemetry setup, then logging setup, in a fresh process. *)
Lemma setup_logging_after_telemetry_drops_bridge_witness :
  ∃ w' h,
    (telemetry.setup_telemetry Settings.default ;;; setup_logging)
      (initial_world Settings.default no_fault) = (Ok tt, w')
    ∧ root_handlers (logging w') = [h] ∧ is_console h.
Proof.
  destruct (setup_logging_after_telemetry_drops_bridge Settings.default
              (initial_world Settings.default no_fault) INFO)
    as (w' & h & Hrun & Hh & Hc & _).
  - reflexivity.
  - exists w', h. split; [exact Hrun|]. split; [exact Hh|exact Hc].
Defined.

(** Two telemetry setups in a fresh process. *)
Lemma setup_telemetry_twice_attaches_two_bridges_witness :
  ∃ w' h1 h2,
    (telemetry.setup_telemetry Settings.default ;;;
     telemetry.setup_telemetry Settings.default)
      (initial_world Settings.default no_fault) = (Ok tt, w')
    ∧ root_handlers (logging w') = [h1; h2].
Proof.
  destruct (setup_telemetry_twice_attaches_two_bridges Settings.default
              (initial_world Settings.default no_fault))
    as (w' & h1 & h2 & p1 & p2 & Hrun & Hh & _).
  - reflexivity.
  - constructor.
  - exists w', h1, h2. split; [exact Hrun|exact Hh].
Defined.

(** Every signal switched off. *)
Lemma all_signals_disabled_builds_only_resource_witness :
  ∃ w',
    telemetry.setup_telemetry
      (Settings.mk "localhost" 3306 "root" "password" "otel_example"
         "0.0.0.0" 8080 "development" "info" "otel-example-python" "1.0.0"
         "development" "localhost:4320" false false false)
      (initial_world Settings.default no_fault) = (Ok tt, w')
    ∧ next_obj w' = 4%nat.
Proof.
  destruct (all_signals_disabled_builds_only_resource
              (Settings.mk "localhost" 3306 "root" "password" "otel_example"
                 "0.0.0.0" 8080 "development" "info" "otel-example-python" "1.0.0"
                 "development" "localhost:4320" false false false)
              (initial_world Settings.default no_fault))
    as (w' & Hrun & _ & _ & _ & Hn); [reflexivity..|].
  exists w'. split; [exact Hrun|exact Hn].
Defined.

(** A whole run with the default settings. *)
Lemma lifecycle_shuts_down_what_it_registered_witness :
  ∃ w', lifecycle (initial_world Settings.default no_fault) = (Ok tt, w').
Proof.
  destruct (lifecycle_shuts_down_what_it_registered Settings.default INFO)
    as (w' & Hrun & _).
  - reflexivity.
  - exists w'. exact Hrun.
Defined.
